(** * Risk analyzer of the extremism monitor bot

    A shallow embedding of [src/ai/riskAnalyzer.js] (the message classifier
    [analyzeMessage], the profile aggregator [updateRiskProfile], the banding
    [getRiskLevel]) and of the alert gate of the message handler in
    [src/index.js].

    Modelling conventions.
    - A JavaScript number is an exact rational ([Q]); rounding of IEEE
      doubles is not modelled.  Counters that the code only ever increments
      by one ([messageCount], [highRiskCount], match counts) are integers.
    - A JavaScript string is the list of its UTF-16 code units.
    - An object used as a dictionary ([categories], [flagHistory]) is a
      finite map of its own properties.  This is what the code does for
      every key that is not a name inherited from [Object.prototype]
      ([inheritedNames] below); for those names a read finds the inherited
      value, which the map does not show.
    - The sentiment package, [String.prototype.toLowerCase] and the wall
      clock belong to the runtime and are parameters of the model.
    - [updateRiskProfile] mutates the profile it is given and returns it;
      it is modelled as the function from the old record to the new one. *)

From Stdlib Require Import ZArith QArith Qminmax Qabs Lia Lqa List.
From stdpp Require Import gmap strings list.

#[local] Open Scope Q_scope.

(** ** JavaScript values *)

Module Js.

(** A string: its UTF-16 code units. *)
Definition jsstring := list N.

(** An ASCII literal of the source as a JavaScript string. *)
Definition lit (s : string) : jsstring :=
  map Ascii.N_of_ascii (String.list_ascii_of_string s).

Inductive value :=
| Undefined
| Null
| Bool (b : bool)
| Number (x : Q)
| NaN
| Str (s : jsstring)
| Object.                 (* arrays, functions, wrappers, plain objects *)

(** [ToBoolean]. *)
Definition truthy (v : value) : bool :=
  match v with
  | Undefined | Null | NaN => false
  | Bool b => b
  | Number x => negb (Qeq_bool x 0)
  | Str s => match s with [] => false | _ :: _ => true end
  | Object => true
  end.

Definition typeof (v : value) : string :=
  match v with
  | Undefined => "undefined"
  | Null => "object"
  | Bool _ => "boolean"
  | Number _ | NaN => "number"
  | Str _ => "string"
  | Object => "object"
  end.

Inductive error := TypeError.

(** The outcome of a call: a value, or a thrown exception. *)
Inductive completion (A : Type) :=
| Normal (a : A)
| Throw (e : error).
Arguments Normal {A} a.
Arguments Throw {A} e.

(** [a < b] and [a >= b] on numbers. *)
Definition ltb (a b : Q) : bool :=
  match a ?= b with Lt => true | _ => false end.
Definition geb (a b : Q) : bool := Qle_bool b a.

(** [String.prototype.includes]: [k] occurs in [s] as a contiguous run of
    code units. *)
Fixpoint startsWith (s k : jsstring) : bool :=
  match k, s with
  | [], _ => true
  | _ :: _, [] => false
  | c :: k', d :: s' => (c =? d)%N && startsWith s' k'
  end.

Fixpoint includes (s k : jsstring) : bool :=
  startsWith s k ||
  match s with
  | [] => false
  | _ :: s' => includes s' k
  end.

(** [s.match(/[A-Z]/g)]: the array of all matches, or [null] when there is
    none. *)
Definition isAZ (c : N) : bool := (65 <=? c)%N && (c <=? 90)%N.

Definition match_AZ (s : jsstring) : option (list jsstring) :=
  match filter (fun c => isAZ c = true) s with
  | [] => None
  | m => Some (map (fun c => [c]) m)
  end.

(** [/(.)\1{4,}/.test(s)].  Without the [s] and [u] flags the dot matches
    one code unit that is not a line terminator (LF, CR, LS, PS); the
    back-reference then asks for at least four more copies of it. *)
Definition isLineTerminator (c : N) : bool :=
  (c =? 0x0A)%N || (c =? 0x0D)%N || (c =? 0x2028)%N || (c =? 0x2029)%N.

Fixpoint leadingCopies (c : N) (s : jsstring) : nat :=
  match s with
  | d :: s' => if (c =? d)%N then S (leadingCopies c s') else O
  | [] => O
  end.

Fixpoint test_repeat (s : jsstring) : bool :=
  match s with
  | [] => false
  | c :: s' =>
      (negb (isLineTerminator c) && (4 <=? leadingCopies c s')%nat)
      || test_repeat s'
  end.

(** [[...new Set(l)]]: the first occurrence of each element, in order. *)
Fixpoint uniq (seen l : list string) : list string :=
  match l with
  | [] => []
  | x :: l' =>
      if bool_decide (x ∈ seen) then uniq seen l'
      else x :: uniq (x :: seen) l'
  end.

End Js.

Import Js.

(** ** Data *)

Definition Timestamp := string.

Record CategoryMatch := {
  count : Z;
  words : list jsstring
}.

(** The object returned by [analyzeMessage].  [analyzedAt = None] stands for
    an object without that property. *)
Record Assessment := {
  riskScore : Q;
  sentiment : Q;
  flags : list string;
  categories : gmap string CategoryMatch;
  analyzedAt : option Timestamp
}.

Record RiskProfile := {
  messageCount : Z;
  totalRiskScore : Q;
  averageRiskScore : Q;
  highRiskCount : Z;
  flagHistory : gmap string Z;
  lastAnalyzed : option Timestamp;
  trendingUp : bool
}.

(** [process.env], restricted to the three thresholds.  A field holds what
    [parseFloat] reads from the variable; [None] is an unset or empty
    variable, for which [||] selects the default. *)
Record Env := {
  RISK_THRESHOLD_LOW : option Q;
  RISK_THRESHOLD_MEDIUM : option Q;
  RISK_THRESHOLD_HIGH : option Q
}.

Definition envDefault : Env :=
  {| RISK_THRESHOLD_LOW := None;
     RISK_THRESHOLD_MEDIUM := None;
     RISK_THRESHOLD_HIGH := None |}.

(** [parseFloat(process.env.X || d)]. *)
Definition threshold (x : option Q) (d : Q) : Q :=
  match x with Some v => v | None => d end.

Definition thresholdLow (env : Env) : Q := threshold (RISK_THRESHOLD_LOW env) 0.3.
Definition thresholdMedium (env : Env) : Q := threshold (RISK_THRESHOLD_MEDIUM env) 0.6.
Definition thresholdHigh (env : Env) : Q := threshold (RISK_THRESHOLD_HIGH env) 0.8.

(** ** The lexicon *)

(** [RISK_PATTERNS], in the order of [Object.entries]. *)
Definition RISK_PATTERNS : list (string * list jsstring) :=
  [ ("violence",
     map lit ["kill"; "murder"; "attack"; "destroy"; "bomb"; "weapon"; "gun";
              "shoot"; "stab"; "assault"; "hurt"; "harm"; "fight"; "war";
              "blood"; "death"]);
    ("hate",
     map lit ["hate"; "racist"; "nazi"; "supremacist"; "genocide";
              "ethnic cleansing"; "inferior"; "subhuman"; "vermin"; "scum";
              "trash"]);
    ("radicalization",
     map lit ["jihad"; "crusade"; "holy war"; "martyr"; "extremist";
              "radical"; "revolution"; "uprising"; "overthrow"; "manifesto";
              "propaganda"]);
    ("threats",
     map lit ["threat"; "threaten"; "going to"; "will kill"; "watch out";
              "pay for"; "revenge"; "retaliate"; "get you"; "coming for"]);
    ("toxicity",
     map lit ["kys"; "suicide"; "die"; "worthless"; "pathetic"; "loser";
              "idiot"; "stupid"; "dumb"; "trash"; "garbage"]
     ++ [[0x5E9F; 0x7269]%N])        (* U+5E9F U+7269 *)
  ].

(** ** analyzeMessage *)

(** The local variables [flags], [categories] and [totalRisk]. *)
Record Scan := {
  sflags : list string;
  scategories : gmap string CategoryMatch;
  totalRisk : Q
}.

(** [sentimentScore < 0 ? Math.min(Math.abs(sentimentScore) / 20, 0.3) : 0] *)
Definition sentimentRisk (sentimentScore : Q) : Q :=
  if ltb sentimentScore 0 then Qmin (Qabs sentimentScore / 20) 0.3 else 0.

(** The inner loop: [matchCount] and [matchedWords]. *)
Definition matchKeywords (lowerContent : jsstring) (keywords : list jsstring)
  : Z * list jsstring :=
  fold_left
    (fun '(matchCount, matchedWords) keyword =>
       if includes lowerContent keyword
       then ((matchCount + 1)%Z, matchedWords ++ [keyword])
       else (matchCount, matchedWords))
    keywords (0%Z, []).

(** One iteration of the loop over the lexicon. *)
Definition scanCategory (lowerContent : jsstring) (st : Scan)
    (entry : string * list jsstring) : Scan :=
  let '(category, keywords) := entry in
  let '(matchCount, matchedWords) := matchKeywords lowerContent keywords in
  if (0 <? matchCount)%Z then
    {| sflags := sflags st ++ [category];
       scategories :=
         <[category := {| count := matchCount; words := matchedWords |}]>
           (scategories st);
       totalRisk := totalRisk st + Qmin (inject_Z matchCount * 0.15) 0.5 |}
  else st.

Definition capsRatio (content : jsstring) : Q :=
  inject_Z (Z.of_nat (length (default [] (match_AZ content))))
  / inject_Z (Z.of_nat (length content)).

Definition capsCheck (content : jsstring) (st : Scan) : Scan :=
  if ltb 0.5 (capsRatio content) && (10 <? length content)%nat then
    {| sflags := sflags st ++ ["excessive_caps"];
       scategories := scategories st;
       totalRisk := totalRisk st + 0.1 |}
  else st.

Definition spamCheck (content : jsstring) (st : Scan) : Scan :=
  if test_repeat content then
    {| sflags := sflags st ++ ["spam_pattern"];
       scategories := scategories st;
       totalRisk := totalRisk st + 0.05 |}
  else st.

Definition zeroAssessment : Assessment :=
  {| riskScore := 0;
     sentiment := 0;
     flags := [];
     categories := ∅;
     analyzedAt := None |}.

Section Classifier.

(** [sentiment.analyze(content).score] of the sentiment package. *)
Variable sentiment_analyze : jsstring -> Q.
(** [String.prototype.toLowerCase]. *)
Variable toLowerCase : jsstring -> jsstring.
(** [new Date().toISOString()] at the time of the call. *)
Variable now : Timestamp.

(** The state of the locals just before the final clamp. *)
Definition accumulate (content : jsstring) : Scan :=
  let lowerContent := toLowerCase content in
  let sentimentScore := sentiment_analyze content in
  let st0 := {| sflags := [];
                scategories := ∅;
                totalRisk := 0 + sentimentRisk sentimentScore |} in
  let st1 := fold_left (scanCategory lowerContent) RISK_PATTERNS st0 in
  let st2 := capsCheck content st1 in
  spamCheck content st2.

(** The body of [analyzeMessage] past the guard. *)
Definition analyzeString (content : jsstring) : Assessment :=
  let st := accumulate content in
  {| riskScore := Qmin (totalRisk st) 1;
     sentiment := sentiment_analyze content;
     flags := uniq [] (sflags st);
     categories := scategories st;
     analyzedAt := Some now |}.

(** [analyzeMessage].  Past the guard the body calls string methods on
    [content]; on any other receiver the first of them,
    [content.toLowerCase()], throws a [TypeError]. *)
Definition analyzeMessage (content : value) : completion Assessment :=
  if negb (truthy content) || negb (String.eqb (typeof content) "string")
  then Normal zeroAssessment
  else
    match content with
    | Str s => Normal (analyzeString s)
    | _ => Throw TypeError
    end.

End Classifier.

(** ** updateRiskProfile *)

Definition defaultProfile : RiskProfile :=
  {| messageCount := 0;
     totalRiskScore := 0;
     averageRiskScore := 0;
     highRiskCount := 0;
     flagHistory := ∅;
     lastAnalyzed := None;
     trendingUp := false |}.

Definition decayFactor : Q := 0.95.

(** [if (!h[flag]) h[flag] = 0;  h[flag] += 1;]
    on the own properties of [h]; the reading of the code for a [flag] that
    is not an inherited name. *)
Definition bumpFlag (h : gmap string Z) (flag : string) : gmap string Z :=
  let h1 :=
    match h !! flag with
    | Some n => if (n =? 0)%Z then <[flag := 0%Z]> h else h
    | None => <[flag := 0%Z]> h
    end in
  <[flag := (default 0%Z (h1 !! flag) + 1)%Z]> h1.

Definition updateRiskProfile (env : Env) (now : Timestamp)
    (userProfile : option RiskProfile) (analysis : Assessment) : RiskProfile :=
  let userProfile :=
    match userProfile with
    | Some p => p
    | None => defaultProfile
    end in
  let messageCount' := (messageCount userProfile + 1)%Z in
  let totalRiskScore' :=
    totalRiskScore userProfile * decayFactor + riskScore analysis in
  let averageRiskScore' :=
    totalRiskScore' / (inject_Z messageCount' * decayFactor + 1) in
  let highRiskCount' :=
    if geb (riskScore analysis) (thresholdHigh env)
    then (highRiskCount userProfile + 1)%Z
    else highRiskCount userProfile in
  let flagHistory' :=
    fold_left bumpFlag (flags analysis) (flagHistory userProfile) in
  let trendingUp' :=
    if (5 <? messageCount')%Z
    then ltb (averageRiskScore' * 1.2) (riskScore analysis)
    else trendingUp userProfile in
  {| messageCount := messageCount';
     totalRiskScore := totalRiskScore';
     averageRiskScore := averageRiskScore';
     highRiskCount := highRiskCount';
     flagHistory := flagHistory';
     lastAnalyzed := Some now;
     trendingUp := trendingUp' |}.

(** The count the profile holds for a flag; a missing entry reads as 0. *)
Definition flagCount (p : RiskProfile) (flag : string) : Z :=
  default 0%Z (flagHistory p !! flag).

(** ** getRiskLevel and the alert gate *)

Definition getRiskLevel (env : Env) (riskScore : Q) : string :=
  let low := thresholdLow env in
  let medium := thresholdMedium env in
  let high := thresholdHigh env in
  if ltb riskScore low then "Low"
  else if ltb riskScore medium then "Medium"
  else if ltb riskScore high then "High"
  else "Critical".

(** The condition under which the message handler calls [sendAlert]. *)
Definition shouldAlert (env : Env) (analysis : Assessment) : bool :=
  geb (riskScore analysis) (thresholdHigh env).

(** ** Reference quantities

    What the specification says each channel contributes, written from its
    words; the theorems below compare the code with them. *)

(** The terms of a category that occur in the lowercased content, each term
    of the list once. *)
Definition matchedTerms (lower : jsstring) (terms : list jsstring)
  : list jsstring :=
  filter (fun k => includes lower k = true) terms.

(** [min(count × 0.15, 0.5)] for a positive count, nothing otherwise. *)
Definition categoryRisk (lower : jsstring) (terms : list jsstring) : Q :=
  let n := Z.of_nat (length (matchedTerms lower terms)) in
  if (0 <? n)%Z then Qmin (inject_Z n * 0.15) 0.5 else 0.

Definition lexiconRisk (lower : jsstring)
    (lexicon : list (string * list jsstring)) : Q :=
  fold_right (fun entry acc => acc + categoryRisk lower entry.2) 0 lexicon.

(** The number of code units in [A-Z]. *)
Definition upperCount (content : jsstring) : nat :=
  length (filter (fun c => isAZ c = true) content).

(** More than half of the code units are upper case and there are more than
    ten of them. *)
Definition shouting (content : jsstring) : Prop :=
  0.5 < inject_Z (Z.of_nat (upperCount content))
        / inject_Z (Z.of_nat (length content))
  ∧ (10 < length content)%nat.

(** Some code unit occurs five times in a row. *)
Definition hasRun5 (content : jsstring) : Prop :=
  ∃ pre c post, content = pre ++ replicate 5 c ++ post.

(** The same, for a code unit the dot of the regular expression accepts. *)
Definition hasDotRun5 (content : jsstring) : Prop :=
  ∃ pre c post,
    isLineTerminator c = false ∧ content = pre ++ replicate 5 c ++ post.

Definition capsRisk (content : jsstring) : Q :=
  if ltb 0.5 (capsRatio content) && (10 <? length content)%nat
  then 0.1 else 0.

Definition spamRisk (content : jsstring) : Q :=
  if test_repeat content then 0.05 else 0.

(** The profiles the aggregator can produce: the chain of updates that
    starts at the default profile, every assessment scoring within [0, 1]. *)
Inductive reachable (env : Env) : RiskProfile -> Prop :=
| reachable_default : reachable env defaultProfile
| reachable_update p a now :
    reachable env p ->
    0 <= riskScore a <= 1 ->
    reachable env (updateRiskProfile env now (Some p) a).

(** What a chain of updates maintains: the decayed total never exceeds the
    number of messages. *)
Definition bounded (p : RiskProfile) : Prop :=
  (0 <= messageCount p)%Z
  ∧ 0 <= totalRiskScore p <= inject_Z (messageCount p)
  ∧ 0 <= averageRiskScore p <= 1.

(** ** Sample inputs

    Stand-ins for the runtime and a few inputs of the test suite, used to
    evaluate the model. *)

Module Sample.

(** Lower-casing of the ASCII letters; other code units are kept. *)
Definition asciiLower (s : jsstring) : jsstring :=
  map (fun c => if isAZ c then (c + 32)%N else c) s.

(** A sentiment primitive that reports a fixed polarity. *)
Definition polarity (x : Q) : jsstring -> Q := fun _ => x.

Definition clock : Timestamp := "2024-01-01T00:00:00.000Z".

(** The profile of the aggregator tests: five messages seen. *)
Definition fiveMessages : RiskProfile :=
  {| messageCount := 5;
     totalRiskScore := 2.5;
     averageRiskScore := 0.5;
     highRiskCount := 0;
     flagHistory := ∅;
     lastAnalyzed := None;
     trendingUp := false |}.

Definition scoring (x : Q) (fl : list string) : Assessment :=
  {| riskScore := x;
     sentiment := 0;
     flags := fl;
     categories := ∅;
     analyzedAt := Some clock |}.

Definition killDestroy : jsstring :=
  lit "I want to kill and destroy everything".

Definition allCaps : jsstring := lit "THIS IS ALL CAPS MESSAGE".

Definition hellooo : jsstring := lit "hellooooooo".

(** Five line feeds. *)
Definition blankLines : jsstring := replicate 5 0x0A%N.

(** The terms of the first category of the lexicon, [violence]. *)
Definition violenceTerms : list jsstring :=
  match RISK_PATTERNS with
  | (_, terms) :: _ => terms
  | [] => []
  end.

(** The default profile after one message scoring 0.5. *)
Definition oneMessage : RiskProfile :=
  updateRiskProfile envDefault clock (Some defaultProfile)
    (scoring 0.5 ["violence"]).

End Sample.

(** The property names every plain object inherits from
    [Object.prototype].  For such a name [h[name]] reads the inherited
    value when [h] has no own property of that name, so the flag loop of
    [updateRiskProfile] does not treat it as a missing count. *)
Definition inheritedNames : list string :=
  [ "constructor"; "__proto__"; "hasOwnProperty"; "isPrototypeOf";
    "propertyIsEnumerable"; "toLocaleString"; "toString"; "valueOf";
    "__defineGetter__"; "__defineSetter__"; "__lookupGetter__";
    "__lookupSetter__" ].

(** Two messages that differ only in the character that is repeated five
    times between the two words: a line feed, the letter o. *)
Definition spacedOut : jsstring :=
  lit "hi" ++ replicate 5 0x0A%N ++ lit "there".

Definition stretched : jsstring :=
  lit "hi" ++ replicate 5 0x6F%N ++ lit "there".

(** ** Chains of messages of one author

    The message handler feeds what [analyzeMessage] returns for the content
    of a message into [updateRiskProfile]; a tracked profile is one that
    such a chain produces from the default profile. *)
Inductive tracked (env : Env) : RiskProfile -> Prop :=
| tracked_default : tracked env defaultProfile
| tracked_message p sentiment_analyze toLowerCase analyzed updated content a :
    tracked env p ->
    analyzeMessage sentiment_analyze toLowerCase analyzed content = Normal a ->
    tracked env (updateRiskProfile env updated (Some p) a).

(** The names a flag of the classifier can have. *)
Definition flagNames : list string :=
  RISK_PATTERNS.*1 ++ ["excessive_caps"; "spam_pattern"].

(** The position of a label of [getRiskLevel] in the order of severity. *)
Definition levelRank (level : string) : nat :=
  if String.eqb level "Low" then 0
  else if String.eqb level "Medium" then 1
  else if String.eqb level "High" then 2
  else 3.

(** ** The logger ([src/utils/logger.js]) *)

Module Logger.

Inductive Console := ConsoleLog | ConsoleWarn | ConsoleError.

(** What one call of [writeLog] does: a line appended to the log file, a
    line printed on a console stream. *)
Inductive Output :=
| AppendFile (text : jsstring)
| ToConsole (stream : Console) (text : jsstring).

Section Runtime.

(** [String.prototype.toUpperCase] and [JSON.stringify]. *)
Variable toUpperCase : jsstring -> jsstring.
Variable JSON_stringify : value -> jsstring.
(** [process.env.NODE_ENV]. *)
Variable NODE_ENV : option string.
(** [new Date().toISOString()] at the time of the call. *)
Variable timestamp : Timestamp.

Definition formatLog (level : string) (message : jsstring) (data : value)
  : jsstring :=
  let logMessage :=
    lit "[" ++ lit timestamp ++ lit "] [" ++ toUpperCase (lit level)
    ++ lit "] " ++ message in
  if truthy data then logMessage ++ lit " " ++ JSON_stringify data
  else logMessage.

Definition writeLog (level : string) (message : jsstring) (data : value)
  : list Output :=
  let logMessage := formatLog level message data in
  AppendFile (logMessage ++ [0x0A%N])
  :: (if String.eqb level "error" then [ToConsole ConsoleError logMessage]
      else if String.eqb level "warn" then [ToConsole ConsoleWarn logMessage]
      else if String.eqb level "debug" then
        match NODE_ENV with
        | Some mode =>
            if String.eqb mode "development"
            then [ToConsole ConsoleLog logMessage] else []
        | None => []
        end
      else [ToConsole ConsoleLog logMessage]).

(** The exported functions. *)
Definition info (message : jsstring) (data : value) := writeLog "info" message data.
Definition error (message : jsstring) (data : value) := writeLog "error" message data.
Definition warn (message : jsstring) (data : value) := writeLog "warn" message data.
Definition debug (message : jsstring) (data : value) := writeLog "debug" message data.

End Runtime.

End Logger.

(** ** The bot ([src/index.js]) *)

Module Bot.

Record Author := {
  author_id : jsstring;
  author_tag : jsstring;
  author_bot : bool
}.

(** The fields of a Discord message the handlers read; [content] is a
    string, as the Discord API delivers it. *)
Record Message := {
  message_id : jsstring;
  message_author : Author;
  message_content : jsstring;
  message_channel_id : jsstring;
  message_url : jsstring
}.

(** [process.env] as the bot reads it. *)
Record BotEnv := {
  thresholds : Env;
  MESSAGE_SCAN_ENABLED : option string;
  USER_TRACKING_ENABLED : option string;
  ALERT_CHANNEL_ID : option string
}.

Record EmbedField := {
  field_name : jsstring;
  field_value : jsstring;
  field_inline : bool
}.

Record Embed := {
  embed_color : N;
  embed_title : jsstring;
  embed_fields : list EmbedField;
  embed_timestamp : Timestamp;
  embed_footer : jsstring
}.

(** The calls the handlers make on the database module, the Discord channel
    and the logger, in the order they make them. *)
Inductive Action :=
| DbGetUserProfile (userId : jsstring)
| DbUpdateUserProfile (userId : jsstring) (profile : RiskProfile)
| DbLogMessage (messageId userId content : jsstring) (riskScore : Q)
    (flags : list string)
| DbCreateUserProfile (userId : jsstring)
| ChannelSend (channelId : string) (embed : Embed)
| Log (level : string) (message : jsstring) (data : value).

(** What [client.channels.fetch] and [alertChannel.send] do is decided
    outside the program. *)
Inductive FetchResult := FetchThrows | FetchNothing | FetchChannel.
Inductive SendResult := SendThrows | SendDone.

(** [Array.prototype.join]. *)
Fixpoint join (sep : jsstring) (l : list jsstring) : jsstring :=
  match l with
  | [] => []
  | x :: l' =>
      match l' with
      | [] => x
      | _ :: _ => x ++ sep ++ join sep l'
      end
  end.

(** [analysis.flags.join(', ') || 'None'] *)
Definition flagsField (flags : list string) : jsstring :=
  match join (lit ", ") (map lit flags) with
  | [] => lit "None"
  | joined => joined
  end.

(** [content.substring(0, 200) + (content.length > 200 ? '...' : '')] *)
Definition messagePreview (content : jsstring) : jsstring :=
  take 200 content
  ++ (if (200 <? length content)%nat then lit "..." else []).

Section Handlers.

Variable sentiment_analyze : jsstring -> Q.
Variable toLowerCase : jsstring -> jsstring.
(** [Number.prototype.toFixed(1)] and the conversion of a number to a string
    in a template literal. *)
Variable toFixed1 : Q -> jsstring.
Variable numberToString : Q -> jsstring.
Variable benv : BotEnv.

Definition alertEmbed (sent : Timestamp) (message : Message)
    (analysis : Assessment) (userProfile : RiskProfile) : Embed :=
  {| embed_color := 0xff0000%N;
     embed_title := [0x26A0; 0xFE0F]%N ++ lit " High Risk Content Detected";
     embed_fields :=
       [ {| field_name := lit "User";
            field_value :=
              lit "<@" ++ author_id (message_author message) ++ lit "> ("
              ++ author_tag (message_author message) ++ lit ")";
            field_inline := true |};
         {| field_name := lit "Risk Score";
            field_value := toFixed1 (riskScore analysis * 100) ++ lit "%";
            field_inline := true |};
         {| field_name := lit "User Total Risk";
            field_value :=
              toFixed1 (totalRiskScore userProfile * 100) ++ lit "%";
            field_inline := true |};
         {| field_name := lit "Channel";
            field_value := lit "<#" ++ message_channel_id message ++ lit ">";
            field_inline := true |};
         {| field_name := lit "Flags";
            field_value := flagsField (flags analysis);
            field_inline := false |};
         {| field_name := lit "Message Preview";
            field_value := messagePreview (message_content message);
            field_inline := false |};
         {| field_name := lit "Link";
            field_value :=
              lit "[Jump to Message](" ++ message_url message ++ lit ")";
            field_inline := false |} ];
     embed_timestamp := sent;
     embed_footer := lit "Extremism Monitor Bot" |}.

(** [sendAlert]: nothing without a configured channel; a failure of the
    fetch or of the send is caught and logged. *)
Definition sendAlert (sent : Timestamp) (fetch : FetchResult)
    (send : SendResult) (message : Message) (analysis : Assessment)
    (userProfile : RiskProfile) : list Action :=
  match ALERT_CHANNEL_ID benv with
  | None => []
  | Some alertChannelId =>
      if String.eqb alertChannelId "" then []
      else
        match fetch with
        | FetchThrows => [Log "error" (lit "Error sending alert:") Object]
        | FetchNothing => []
        | FetchChannel =>
            ChannelSend alertChannelId
              (alertEmbed sent message analysis userProfile)
            :: match send with
               | SendDone =>
                   [Log "info"
                      (lit "Alert sent for message " ++ message_id message)
                      Undefined]
               | SendThrows =>
                   [Log "error" (lit "Error sending alert:") Object]
               end
        end
  end.

(** The handler of [MessageCreate].  [stored] is what
    [database.getUserProfile] returns; [analyzed], [updated] and [sent] are
    the three readings of the clock.  The calls on the database are taken
    to return normally. *)
Definition onMessageCreate (analyzed updated sent : Timestamp)
    (fetch : FetchResult) (send : SendResult)
    (stored : option RiskProfile) (message : Message) : list Action :=
  if author_bot (message_author message) then []
  else
    match MESSAGE_SCAN_ENABLED benv with
    | None => []
    | Some enabled =>
        if negb (String.eqb enabled "true") then []
        else
          match analyzeMessage sentiment_analyze toLowerCase analyzed
                  (Str (message_content message)) with
          | Throw _ =>
              [Log "error" (lit "Error analyzing message:") Object]
          | Normal analysis =>
              let userId := author_id (message_author message) in
              let updatedProfile :=
                updateRiskProfile (thresholds benv) updated stored analysis in
              [ DbGetUserProfile userId;
                DbUpdateUserProfile userId updatedProfile;
                DbLogMessage (message_id message) userId
                  (message_content message) (riskScore analysis)
                  (flags analysis) ]
              ++ (if geb (riskScore analysis)
                       (thresholdHigh (thresholds benv))
                  then sendAlert sent fetch send message analysis
                         updatedProfile
                  else [])
              ++ [ Log "debug"
                     (lit "Analyzed message from "
                      ++ author_tag (message_author message)
                      ++ lit ": risk=" ++ numberToString (riskScore analysis))
                     Undefined ]
          end
    end.

(** The handler of [GuildMemberAdd]. *)
Definition onGuildMemberAdd (memberId memberTag : jsstring) : list Action :=
  match USER_TRACKING_ENABLED benv with
  | Some enabled =>
      if String.eqb enabled "true" then
        [ DbCreateUserProfile memberId;
          Log "info" (lit "New member tracked: " ++ memberTag) Undefined ]
      else []
  | None => []
  end.

End Handlers.



End Bot.

(** * Properties *)

(** ** Comparisons *)

Lemma ltb_lt (a b : Q) : ltb a b = true ↔ a < b.
Proof.
  unfold ltb. rewrite Qlt_alt. destruct (a ?= b); split; congruence.
Qed.

Lemma ltb_ge (a b : Q) : ltb a b = false ↔ b <= a.
Proof.
  rewrite <- not_true_iff_false, ltb_lt. split.
  - apply Qnot_lt_le.
  - apply Qle_not_lt.
Qed.

Lemma geb_le (a b : Q) : geb a b = true ↔ b <= a.
Proof. apply Qle_bool_iff. Qed.

Lemma geb_lt (a b : Q) : geb a b = false ↔ a < b.
Proof.
  rewrite <- not_true_iff_false, geb_le. split.
  - apply Qnot_le_lt.
  - apply Qlt_not_le.
Qed.

(** ** The aggregator: one update *)

(** The divisor of the average is never zero, so the division of [Q] (total,
    with [x / 0 = 0]) agrees with the division the code performs. *)
Lemma average_divisor_nonzero (n : Z) :
  ¬ inject_Z n * decayFactor + 1 == 0.
Proof.
  unfold decayFactor, Qeq, inject_Z. cbn. lia.
Qed.

(** C1.  One call of [updateRiskProfile] on a profile [p] with an assessment
    [a]: the message count grows by one; the total is the old total times
    0.95 plus the score; the average is the new total over the new count
    times 0.95 plus one; the high-risk count grows by one when the score
    reaches the high threshold and is kept otherwise; the threshold is 0.8
    when the environment does not set it. *)
Theorem updateRiskProfile_arithmetic
    (env : Env) (now : Timestamp) (p : RiskProfile) (a : Assessment) :
  let p' := updateRiskProfile env now (Some p) a in
  messageCount p' = (messageCount p + 1)%Z
  ∧ totalRiskScore p' = totalRiskScore p * 0.95 + riskScore a
  ∧ averageRiskScore p'
    = totalRiskScore p' / (inject_Z (messageCount p') * 0.95 + 1)
  ∧ (thresholdHigh env <= riskScore a →
     highRiskCount p' = (highRiskCount p + 1)%Z)
  ∧ (riskScore a < thresholdHigh env → highRiskCount p' = highRiskCount p)
  ∧ thresholdHigh envDefault = 0.8.
Proof.
  cbn zeta. unfold updateRiskProfile; cbn [messageCount totalRiskScore
    averageRiskScore highRiskCount].
  repeat split.
  - intros H. apply geb_le in H. now rewrite H.
  - intros H. apply geb_lt in H. now rewrite H.
Qed.

(** C2, as amended.  A profile with at most four messages before the update
    keeps its [trendingUp]; once the count after the update exceeds five,
    [trendingUp] is true exactly when the score exceeds 1.2 times the
    average that the same update has just computed. *)
Theorem trend_gate
    (env : Env) (now : Timestamp) (p : RiskProfile) (a : Assessment) :
  let p' := updateRiskProfile env now (Some p) a in
  ((messageCount p <= 4)%Z → trendingUp p' = trendingUp p)
  ∧ ((5 < messageCount p')%Z →
     (trendingUp p' = true ↔ averageRiskScore p' * 1.2 < riskScore a)).
Proof.
  cbn zeta. unfold updateRiskProfile;
    cbn [messageCount trendingUp averageRiskScore]. split.
  - intros H.
    destruct (Z.ltb_spec 5 (messageCount p + 1)); [lia | reflexivity].
  - intros H.
    destruct (Z.ltb_spec 5 (messageCount p + 1)); [| lia].
    apply ltb_lt.
Qed.

(** C2, as stated, fails at the boundary: with five messages before the
    update the count after it is six, the trend is evaluated, and a score of
    1 turns [trendingUp] on. *)
Lemma trend_gate_at_five :
  (messageCount Sample.fiveMessages <= 5)%Z
  ∧ trendingUp Sample.fiveMessages = false
  ∧ trendingUp
      (updateRiskProfile envDefault Sample.clock (Some Sample.fiveMessages)
         (Sample.scoring 1 []))
    = true.
Proof. vm_compute. repeat split; congruence. Qed.

(** ** The alert gate and the severity bands *)

(** The chain of tests of [getRiskLevel], read off without any assumption on
    the order of the thresholds. *)
Lemma getRiskLevel_chain (env : Env) (r : Q) :
  (getRiskLevel env r = "Low" ↔ r < thresholdLow env)
  ∧ (getRiskLevel env r = "Medium" ↔
     thresholdLow env <= r ∧ r < thresholdMedium env)
  ∧ (getRiskLevel env r = "High" ↔
     thresholdLow env <= r ∧ thresholdMedium env <= r
     ∧ r < thresholdHigh env)
  ∧ (getRiskLevel env r = "Critical" ↔
     thresholdLow env <= r ∧ thresholdMedium env <= r
     ∧ thresholdHigh env <= r).
Proof.
  unfold getRiskLevel.
  destruct (ltb r (thresholdLow env)) eqn:Hl;
    [apply ltb_lt in Hl | apply ltb_ge in Hl];
  (destruct (ltb r (thresholdMedium env)) eqn:Hm;
    [apply ltb_lt in Hm | apply ltb_ge in Hm]);
  (destruct (ltb r (thresholdHigh env)) eqn:Hh;
    [apply ltb_lt in Hh | apply ltb_ge in Hh]);
  repeat split; try discriminate; try tauto; intros; lra.
Qed.

(** C7.  With increasing thresholds (0.3, 0.6 and 0.8 when the environment
    sets none) the alert is raised exactly when the score of the assessment
    reaches the high threshold, and the label depends on that score alone:
    Low below [low], Medium on [low, medium), High on [medium, high),
    Critical from [high] upwards. *)
Theorem alert_and_bands (env : Env) (a : Assessment) :
  thresholdLow env <= thresholdMedium env <= thresholdHigh env →
  let r := riskScore a in
  (shouldAlert env a = true ↔ thresholdHigh env <= r)
  ∧ (getRiskLevel env r = "Low" ↔ r < thresholdLow env)
  ∧ (getRiskLevel env r = "Medium" ↔
     thresholdLow env <= r < thresholdMedium env)
  ∧ (getRiskLevel env r = "High" ↔
     thresholdMedium env <= r < thresholdHigh env)
  ∧ (getRiskLevel env r = "Critical" ↔ thresholdHigh env <= r)
  ∧ (thresholdLow envDefault = 0.3
     ∧ thresholdMedium envDefault = 0.6
     ∧ thresholdHigh envDefault = 0.8).
Proof.
  intros [Hlm Hmh] r.
  destruct (getRiskLevel_chain env r) as (HL & HM & HH & HC).
  split; [apply geb_le |].
  split; [exact HL |].
  split; [exact HM |].
  split; [rewrite HH; split; intros; repeat split; lra |].
  split; [rewrite HC; split; intros; repeat split; lra |].
  repeat split.
Qed.

Lemma alert_and_bands_default :
  thresholdLow envDefault <= thresholdMedium envDefault
    <= thresholdHigh envDefault
  ∧ (shouldAlert envDefault (Sample.scoring 0.85 ["violence"]) = true
     ∧ getRiskLevel envDefault 0.85 = "Critical").
Proof.
  assert (H : thresholdLow envDefault <= thresholdMedium envDefault
              <= thresholdHigh envDefault)
    by (split; discriminate).
  split; [exact H |].
  destruct (alert_and_bands envDefault (Sample.scoring 0.85 ["violence"]) H)
    as (Ha & _ & _ & _ & Hc & _).
  split; [apply Ha | apply Hc]; discriminate.
Defined.

(** ** The sentiment channel *)

Lemma sentimentRisk_range (polarity : Q) :
  0 <= sentimentRisk polarity <= 0.3.
Proof.
  unfold sentimentRisk. destruct (ltb polarity 0); [| lra].
  split.
  - apply Q.min_glb; [| lra].
    apply Qle_shift_div_l; [lra |].
    pose proof (Qabs_nonneg polarity). lra.
  - apply Q.le_min_r.
Qed.

(** ** Substrings *)

Lemma startsWith_prefix (s k : jsstring) :
  startsWith s k = true ↔ ∃ post, s = k ++ post.
Proof.
  revert s. induction k as [| c k IH]; intros [| d s]; cbn.
  - split; [intros _; now exists [] | reflexivity].
  - split; [intros _; now exists (d :: s) | reflexivity].
  - split; [discriminate | intros [post H]; discriminate].
  - rewrite andb_true_iff, N.eqb_eq, IH. split.
    + intros [-> [post ->]]. now exists post.
    + intros [post H]. injection H as -> ->.
      split; [reflexivity | now exists post].
Qed.

Lemma includes_substring (s k : jsstring) :
  includes s k = true ↔ ∃ pre post, s = pre ++ k ++ post.
Proof.
  induction s as [| d s IH]; cbn [includes]; rewrite orb_true_iff.
  - rewrite startsWith_prefix. split.
    + intros [[post H] | H]; [| discriminate]. now exists [], post.
    + intros (pre & post & H). left.
      destruct pre; [now exists post |]. discriminate.
  - rewrite startsWith_prefix, IH. split.
    + intros [[post H] | (pre & post & H)].
      * now exists [], post.
      * exists (d :: pre), post. now rewrite H.
    + intros (pre & post & H). destruct pre as [| e pre].
      * left. now exists post.
      * right. injection H as -> ->. now exists pre, post.
Qed.

(** ** The loops over the lexicon *)

Lemma matchKeywords_from (lower : jsstring) (keywords : list jsstring)
    (n : Z) (ws : list jsstring) :
  fold_left
    (fun '(matchCount, matchedWords) keyword =>
       if includes lower keyword
       then ((matchCount + 1)%Z, matchedWords ++ [keyword])
       else (matchCount, matchedWords))
    keywords (n, ws)
  = ((n + Z.of_nat (length (matchedTerms lower keywords)))%Z,
     ws ++ matchedTerms lower keywords).
Proof.
  revert n ws. unfold matchedTerms.
  induction keywords as [| k ks IH]; intros n ws; cbn [fold_left].
  - cbn. now rewrite Z.add_0_r, app_nil_r.
  - rewrite filter_cons. destruct (includes lower k) eqn:Hk.
    + rewrite IH. destruct (decide (true = true)); [| congruence].
      cbn [length]. rewrite <- app_assoc. f_equal. lia.
    + rewrite IH. destruct (decide (false = true)); [discriminate |].
      reflexivity.
Qed.

Lemma matchKeywords_matchedTerms (lower : jsstring) (keywords : list jsstring) :
  matchKeywords lower keywords
  = (Z.of_nat (length (matchedTerms lower keywords)),
     matchedTerms lower keywords).
Proof. unfold matchKeywords. now rewrite matchKeywords_from. Qed.

Lemma matchedTerms_positive (lower : jsstring) (terms : list jsstring) :
  (0 <? Z.of_nat (length (matchedTerms lower terms)))%Z = true
  ↔ matchedTerms lower terms ≠ [].
Proof.
  rewrite Z.ltb_lt. destruct (matchedTerms lower terms); cbn; split;
    (congruence || lia).
Qed.

Lemma scanCategory_step (lower : jsstring) (st : Scan)
    (category : string) (terms : list jsstring) :
  scanCategory lower st (category, terms)
  = if (0 <? Z.of_nat (length (matchedTerms lower terms)))%Z then
      {| sflags := sflags st ++ [category];
         scategories :=
           <[category :=
               {| count := Z.of_nat (length (matchedTerms lower terms));
                  words := matchedTerms lower terms |}]> (scategories st);
         totalRisk := totalRisk st + categoryRisk lower terms |}
    else st.
Proof.
  unfold scanCategory, categoryRisk. rewrite matchKeywords_matchedTerms.
  cbn zeta. now destruct (0 <? _)%Z.
Qed.

Lemma scan_totalRisk (lower : jsstring) lexicon (st : Scan) :
  totalRisk (fold_left (scanCategory lower) lexicon st)
  == totalRisk st + lexiconRisk lower lexicon.
Proof.
  revert st. induction lexicon as [| [c ks] lex IH]; intros st;
    cbn [fold_left lexiconRisk fold_right].
  - ring.
  - rewrite IH, scanCategory_step. fold (lexiconRisk lower lex).
    cbn [snd]. unfold categoryRisk at 2.
    destruct (0 <? _)%Z eqn:Hn; cbn [totalRisk].
    + unfold categoryRisk. cbn zeta. rewrite Hn. ring.
    + ring.
Qed.

Lemma scan_flags (lower : jsstring) lexicon (st : Scan) (c : string) :
  c ∈ sflags (fold_left (scanCategory lower) lexicon st)
  ↔ c ∈ sflags st
    ∨ ∃ ks, (c, ks) ∈ lexicon ∧ matchedTerms lower ks ≠ [].
Proof.
  revert st. induction lexicon as [| [d ks] lex IH]; intros st;
    cbn [fold_left].
  - split; [tauto |]. intros [H | (ks & H & _)]; [exact H |].
    now apply elem_of_nil in H.
  - rewrite IH, scanCategory_step.
    destruct (0 <? _)%Z eqn:Hn; cbn [sflags].
    + apply matchedTerms_positive in Hn.
      rewrite elem_of_app, list_elem_of_singleton. split.
      * intros [[H | ->] | (ks' & H & Hm)].
        -- now left.
        -- right. exists ks. split; [apply list_elem_of_here | exact Hn].
        -- right. exists ks'. split; [now apply list_elem_of_further | exact Hm].
      * intros [H | (ks' & H & Hm)]; [now left; left |].
        apply elem_of_cons in H as [H | H].
        -- injection H as -> ->. now left; right.
        -- right. now exists ks'.
    + apply not_true_iff_false in Hn. rewrite matchedTerms_positive in Hn.
      split.
      * intros [H | (ks' & H & Hm)]; [now left |].
        right. exists ks'. split; [now apply list_elem_of_further | exact Hm].
      * intros [H | (ks' & H & Hm)]; [now left |].
        apply elem_of_cons in H as [H | H].
        -- injection H as -> ->. contradiction.
        -- right. now exists ks'.
Qed.

Lemma scan_categories_other (lower : jsstring) lexicon (st : Scan) (c : string) :
  c ∉ lexicon.*1 →
  scategories (fold_left (scanCategory lower) lexicon st) !! c
  = scategories st !! c.
Proof.
  revert st. induction lexicon as [| [d ks] lex IH]; intros st Hc;
    cbn [fold_left]; [reflexivity |].
  rewrite fmap_cons in Hc. cbn [fst] in Hc.
  apply not_elem_of_cons in Hc as [Hd Hc].
  rewrite IH by exact Hc. rewrite scanCategory_step.
  destruct (0 <? _)%Z; cbn [scategories]; [| reflexivity].
  now rewrite lookup_insert_ne.
Qed.

Lemma scan_categories (lower : jsstring) lexicon (st : Scan)
    (c : string) (ks : list jsstring) :
  NoDup lexicon.*1 →
  (c, ks) ∈ lexicon →
  scategories (fold_left (scanCategory lower) lexicon st) !! c
  = if (0 <? Z.of_nat (length (matchedTerms lower ks)))%Z
    then Some {| count := Z.of_nat (length (matchedTerms lower ks));
                 words := matchedTerms lower ks |}
    else scategories st !! c.
Proof.
  revert st. induction lexicon as [| [d ks'] lex IH]; intros st Hnd Hin;
    cbn [fold_left].
  - now apply elem_of_nil in Hin.
  - rewrite fmap_cons in Hnd. cbn [fst] in Hnd.
    apply NoDup_cons in Hnd as [Hd Hnd].
    apply elem_of_cons in Hin as [Hin | Hin].
    + injection Hin as -> ->.
      rewrite scan_categories_other by exact Hd.
      rewrite scanCategory_step.
      destruct (0 <? _)%Z; cbn [scategories]; [| reflexivity].
      apply lookup_insert_eq.
    + rewrite IH by assumption.
      destruct (0 <? Z.of_nat (length (matchedTerms lower ks)))%Z;
        [reflexivity |].
      assert (c ≠ d) as Hne.
      { intros ->. apply Hd. apply (list_elem_of_fmap_2 fst) in Hin. exact Hin. }
      rewrite scanCategory_step.
      destruct (0 <? _)%Z; cbn [scategories]; [| reflexivity].
      now rewrite lookup_insert_ne.
Qed.

(** ** The behavioural heuristics *)

Lemma match_AZ_length (content : jsstring) :
  length (default [] (match_AZ content)) = upperCount content.
Proof.
  unfold match_AZ, upperCount.
  destruct (filter _ content) as [| c m]; [reflexivity |].
  cbn [default]. unfold id. now rewrite length_map.
Qed.

Lemma capsCheck_condition (content : jsstring) :
  ltb 0.5 (capsRatio content) && (10 <? length content)%nat = true
  ↔ shouting content.
Proof.
  unfold shouting, capsRatio.
  now rewrite andb_true_iff, ltb_lt, Nat.ltb_lt, match_AZ_length.
Qed.

Lemma leadingCopies_ge (c : N) (n : nat) (s : jsstring) :
  (n <= leadingCopies c s)%nat ↔ ∃ post, s = replicate n c ++ post.
Proof.
  revert s. induction n as [| n IH]; intros s.
  - split; [intros _; now exists s | intros _; lia].
  - destruct s as [| d s]; cbn [leadingCopies replicate app].
    + split; [lia | intros [post H]; discriminate].
    + destruct (N.eqb_spec c d) as [<- | Hne].
      * rewrite <- Nat.succ_le_mono, IH. split.
        -- intros [post ->]. now exists post.
        -- intros [post H]. injection H as ->. now exists post.
      * split; [lia | intros [post H]; congruence].
Qed.

Lemma test_repeat_run (s : jsstring) :
  test_repeat s = true ↔ hasDotRun5 s.
Proof.
  unfold hasDotRun5. induction s as [| d s IH]; cbn [test_repeat].
  - split; [discriminate |]. intros (pre & c & post & _ & H).
    destruct pre; discriminate.
  - rewrite orb_true_iff, andb_true_iff, negb_true_iff, Nat.leb_le,
      leadingCopies_ge, IH. split.
    + intros [[Hlt [post ->]] | (pre & c & post & Hlt & ->)].
      * now exists [], d, post.
      * now exists (d :: pre), c, post.
    + intros (pre & c & post & Hlt & H). destruct pre as [| e pre].
      * left. cbn in H. injection H as -> ->. split; [exact Hlt |].
        now exists post.
      * right. injection H as -> ->. now exists pre, c, post.
Qed.

Lemma uniq_elem_of (seen l : list string) (x : string) :
  x ∈ uniq seen l ↔ x ∈ l ∧ x ∉ seen.
Proof.
  revert seen. induction l as [| y l IH]; intros seen; cbn [uniq].
  - split; [intros H | intros [H _]]; now apply elem_of_nil in H.
  - destruct (bool_decide_reflect (y ∈ seen)) as [Hy | Hy].
    + rewrite IH, elem_of_cons. split; [tauto |].
      intros [[-> | H] Hs]; [contradiction | tauto].
    + rewrite !elem_of_cons, IH, not_elem_of_cons. split.
      * intros [-> | (H & Hne & Hs)]; tauto.
      * intros [[-> | H] Hs]; [now left |].
        destruct (decide (x = y)) as [-> | Hne]; [now left | tauto].
Qed.

(** ** The lexicon as data *)

Lemma RISK_PATTERNS_names :
  RISK_PATTERNS.*1
  = ["violence"; "hate"; "radicalization"; "threats"; "toxicity"].
Proof. reflexivity. Qed.

Lemma RISK_PATTERNS_NoDup : NoDup RISK_PATTERNS.*1.
Proof. rewrite RISK_PATTERNS_names. apply (bool_decide_unpack _). vm_compute. exact I. Qed.

(** No category lists a term twice, and no term is the empty string. *)
Lemma RISK_PATTERNS_terms (category : string) (terms : list jsstring) :
  (category, terms) ∈ RISK_PATTERNS → NoDup terms ∧ [] ∉ terms.
Proof.
  intros H. unfold RISK_PATTERNS in H.
  repeat (apply elem_of_cons in H as [H | H];
          [injection H as -> ->; split; apply (bool_decide_unpack _);
           vm_compute; exact I |]).
  now apply elem_of_nil in H.
Qed.

Lemma RISK_PATTERNS_not_tag (category : string) (terms : list jsstring) :
  (category, terms) ∈ RISK_PATTERNS →
  category ≠ "excessive_caps" ∧ category ≠ "spam_pattern".
Proof.
  intros H. apply (list_elem_of_fmap_2 fst) in H.
  rewrite RISK_PATTERNS_names in H. cbn [fst] in H.
  repeat (apply elem_of_cons in H as [-> | H]; [split; discriminate |]).
  now apply elem_of_nil in H.
Qed.

Lemma matchedTerms_nil (terms : list jsstring) :
  [] ∉ terms → matchedTerms [] terms = [].
Proof.
  unfold matchedTerms. induction terms as [| k ks IH]; [reflexivity |].
  rewrite not_elem_of_cons. intros [Hk Hks].
  rewrite filter_cons, IH by exact Hks.
  destruct k; [congruence |]. cbn.
  destruct (decide (false = true)); [discriminate | reflexivity].
Qed.

Lemma categoryRisk_nonneg (lower : jsstring) (terms : list jsstring) :
  0 <= categoryRisk lower terms.
Proof.
  unfold categoryRisk. cbn zeta.
  destruct (Z.ltb_spec 0 (Z.of_nat (length (matchedTerms lower terms))));
    [| lra].
  apply Q.min_glb; [| lra].
  assert (0 <= inject_Z (Z.of_nat (length (matchedTerms lower terms)))).
  { change 0 with (inject_Z 0). rewrite <- Zle_Qle. lia. }
  nra.
Qed.

Lemma lexiconRisk_nonneg (lower : jsstring) lexicon :
  0 <= lexiconRisk lower lexicon.
Proof.
  induction lexicon as [| e lex IH]; cbn [lexiconRisk fold_right]; [lra |].
  fold (lexiconRisk lower lex).
  pose proof (categoryRisk_nonneg lower e.2). lra.
Qed.

Lemma capsRisk_cases (content : jsstring) :
  (shouting content ∧ capsRisk content = 0.1)
  ∨ (¬ shouting content ∧ capsRisk content = 0).
Proof.
  unfold capsRisk.
  destruct (ltb 0.5 (capsRatio content) && (10 <? length content)%nat) eqn:H.
  - left. now apply capsCheck_condition in H.
  - right. split; [| reflexivity].
    rewrite <- capsCheck_condition. congruence.
Qed.

Lemma spamRisk_cases (content : jsstring) :
  (hasDotRun5 content ∧ spamRisk content = 0.05)
  ∨ (¬ hasDotRun5 content ∧ spamRisk content = 0).
Proof.
  unfold spamRisk. destruct (test_repeat content) eqn:H.
  - left. now apply test_repeat_run in H.
  - right. split; [| reflexivity].
    rewrite <- test_repeat_run. congruence.
Qed.

Lemma capsCheck_flags (content : jsstring) (st : Scan) (c : string) :
  c ∈ sflags (capsCheck content st)
  ↔ c ∈ sflags st ∨ (c = "excessive_caps" ∧ shouting content).
Proof.
  unfold capsCheck.
  destruct (ltb 0.5 (capsRatio content) && (10 <? length content)%nat) eqn:H.
  - apply capsCheck_condition in H. cbn [sflags].
    rewrite elem_of_app, list_elem_of_singleton. tauto.
  - assert (¬ shouting content) by (rewrite <- capsCheck_condition; congruence).
    tauto.
Qed.

Lemma spamCheck_flags (content : jsstring) (st : Scan) (c : string) :
  c ∈ sflags (spamCheck content st)
  ↔ c ∈ sflags st ∨ (c = "spam_pattern" ∧ hasDotRun5 content).
Proof.
  unfold spamCheck. destruct (test_repeat content) eqn:H.
  - apply test_repeat_run in H. cbn [sflags].
    rewrite elem_of_app, list_elem_of_singleton. tauto.
  - assert (¬ hasDotRun5 content) by (rewrite <- test_repeat_run; congruence).
    tauto.
Qed.

Lemma capsCheck_totalRisk (content : jsstring) (st : Scan) :
  totalRisk (capsCheck content st) == totalRisk st + capsRisk content.
Proof.
  unfold capsCheck, capsRisk.
  destruct (ltb 0.5 (capsRatio content) && (10 <? length content)%nat);
    cbn [totalRisk]; ring.
Qed.

Lemma spamCheck_totalRisk (content : jsstring) (st : Scan) :
  totalRisk (spamCheck content st) == totalRisk st + spamRisk content.
Proof.
  unfold spamCheck, spamRisk.
  destruct (test_repeat content); cbn [totalRisk]; ring.
Qed.

Lemma capsCheck_categories (content : jsstring) (st : Scan) :
  scategories (capsCheck content st) = scategories st.
Proof. unfold capsCheck. now destruct (_ && _). Qed.

Lemma spamCheck_categories (content : jsstring) (st : Scan) :
  scategories (spamCheck content st) = scategories st.
Proof. unfold spamCheck. now destruct (test_repeat content). Qed.

(** ** The classifier *)

Section ClassifierFacts.

Variable sentiment_analyze : jsstring -> Q.
Variable toLowerCase : jsstring -> jsstring.
Variable now : Timestamp.

Local Abbreviation accumulate := (accumulate sentiment_analyze toLowerCase).
Local Abbreviation analyzeString :=
  (analyzeString sentiment_analyze toLowerCase now).
Local Abbreviation analyzeMessage :=
  (analyzeMessage sentiment_analyze toLowerCase now).

(** The accumulator is the sum of the four channels. *)
Lemma accumulate_totalRisk (content : jsstring) :
  totalRisk (accumulate content)
  == sentimentRisk (sentiment_analyze content)
     + lexiconRisk (toLowerCase content) RISK_PATTERNS
     + capsRisk content + spamRisk content.
Proof.
  unfold accumulate.
  rewrite spamCheck_totalRisk, capsCheck_totalRisk, scan_totalRisk.
  cbn [totalRisk]. ring.
Qed.

Lemma accumulate_nonneg (content : jsstring) :
  0 <= totalRisk (accumulate content).
Proof.
  rewrite accumulate_totalRisk.
  pose proof (sentimentRisk_range (sentiment_analyze content)).
  pose proof (lexiconRisk_nonneg (toLowerCase content) RISK_PATTERNS).
  destruct (capsRisk_cases content) as [[_ Hc] | [_ Hc]];
  destruct (spamRisk_cases content) as [[_ Hs] | [_ Hs]];
    rewrite Hc, Hs; lra.
Qed.

Lemma accumulate_flags (content : jsstring) (c : string) :
  c ∈ sflags (accumulate content)
  ↔ (∃ ks, (c, ks) ∈ RISK_PATTERNS
           ∧ matchedTerms (toLowerCase content) ks ≠ [])
    ∨ (c = "excessive_caps" ∧ shouting content)
    ∨ (c = "spam_pattern" ∧ hasDotRun5 content).
Proof.
  unfold accumulate.
  rewrite spamCheck_flags, capsCheck_flags, scan_flags. cbn [sflags].
  rewrite elem_of_nil. tauto.
Qed.

Lemma accumulate_categories (content : jsstring)
    (c : string) (ks : list jsstring) :
  (c, ks) ∈ RISK_PATTERNS →
  scategories (accumulate content) !! c
  = if (0 <? Z.of_nat (length (matchedTerms (toLowerCase content) ks)))%Z
    then Some {| count := Z.of_nat
                   (length (matchedTerms (toLowerCase content) ks));
                 words := matchedTerms (toLowerCase content) ks |}
    else None.
Proof.
  intros H. unfold accumulate.
  rewrite spamCheck_categories, capsCheck_categories.
  rewrite (scan_categories _ _ _ c ks RISK_PATTERNS_NoDup H).
  now cbn [scategories].
Qed.

Lemma analyzeMessage_string (content : jsstring) :
  content ≠ [] →
  analyzeMessage (Str content) = Normal (analyzeString content).
Proof. destruct content; [congruence | reflexivity]. Qed.

Lemma analyzeMessage_degenerate (content : value) :
  (∀ s, content = Str s → s = []) →
  analyzeMessage content = Normal zeroAssessment.
Proof.
  intros H. unfold analyzeMessage.
  destruct content as [| | b | x | | s |]; try reflexivity.
  - now destruct b.
  - cbn. now destruct (Qeq_bool x 0).
  - now rewrite (H s eq_refl).
Qed.

(** C3.  Whatever value is passed, [analyzeMessage] returns an assessment
    whose [riskScore] lies between 0 and 1: the contributions are never
    negative and their sum is cut off at 1. *)
Theorem riskScore_in_unit_interval (content : value) :
  ∃ a, analyzeMessage content = Normal a ∧ 0 <= riskScore a <= 1.
Proof.
  assert (Hzero : (∀ s, content = Str s → s = []) →
                  ∃ a, analyzeMessage content = Normal a
                       ∧ 0 <= riskScore a <= 1).
  { intros H. exists zeroAssessment.
    split; [now apply analyzeMessage_degenerate | cbn; lra]. }
  destruct content as [| | b | x | | [| c s] |];
    try (apply Hzero; intros ? [=]; fail).
  - apply Hzero. now intros ? [= <-].
  - exists (analyzeString (c :: s)). split; [reflexivity |].
    unfold analyzeString; cbn [riskScore]. split.
    + apply Q.min_glb; [apply accumulate_nonneg | lra].
    + apply Q.le_min_r.
Qed.

(** C8.  [analyzeMessage] returns normally for every value, and for a
    value that is absent, not a string, or the empty string, what it
    returns is the zero assessment: score 0 and no flags. *)
Theorem analyzeMessage_never_raises (content : value) :
  (∃ a, analyzeMessage content = Normal a)
  ∧ ((∀ s, content = Str s → s = []) →
     ∃ a, analyzeMessage content = Normal a
          ∧ a = zeroAssessment ∧ riskScore a = 0 ∧ flags a = []).
Proof.
  split.
  - destruct content as [| | b | x | | [| c s] |];
      try (exists zeroAssessment; apply analyzeMessage_degenerate;
           intros ? [=]; fail).
    + exists zeroAssessment. apply analyzeMessage_degenerate.
      now intros ? [= <-].
    + now exists (analyzeString (c :: s)).
  - intros H. exists zeroAssessment.
    split; [now apply analyzeMessage_degenerate | now repeat split].
Qed.

(** C10.  The assessment returned on the degenerate path (no value, not a
    string, empty string) is the four-field zero assessment and carries
    no [analyzedAt]; the assessment returned for a string that passes the
    guard carries the time of the call. *)
Theorem analyzedAt_only_past_the_guard (content : value) :
  ((∀ s, content = Str s → s = []) →
   ∃ a, analyzeMessage content = Normal a
        ∧ a = {| riskScore := 0; sentiment := 0; flags := [];
                 categories := ∅; analyzedAt := None |}
        ∧ analyzedAt a = None)
  ∧ (∀ s, content = Str s → s ≠ [] →
     ∃ a, analyzeMessage content = Normal a ∧ analyzedAt a = Some now).
Proof.
  split.
  - intros H. exists zeroAssessment.
    split; [now apply analyzeMessage_degenerate | now split].
  - intros s -> Hs. exists (analyzeString s).
    split; [now apply analyzeMessage_string | reflexivity].
Qed.

(** C9.  For a content that reaches the body, the sentiment channel adds
    [min(|polarity| / 20, 0.3)] to the accumulator when the polarity the
    primitive reports is negative and nothing otherwise; the
    other channels do not depend on the polarity; whatever the polarity,
    the channel adds at most 0.3. *)
Theorem sentiment_contribution (content : jsstring) :
  let polarity := sentiment_analyze content in
  totalRisk (accumulate content)
  == sentimentRisk polarity
     + (lexiconRisk (toLowerCase content) RISK_PATTERNS
        + capsRisk content + spamRisk content)
  ∧ (polarity < 0 →
     sentimentRisk polarity = Qmin (Qabs polarity / 20) 0.3)
  ∧ (0 <= polarity → sentimentRisk polarity = 0)
  ∧ (∀ p : Q, 0 <= sentimentRisk p <= 0.3).
Proof.
  cbn zeta. split; [rewrite accumulate_totalRisk; ring |].
  unfold sentimentRisk at 1 2. split; [| split].
  - intros H. apply ltb_lt in H. now rewrite H.
  - intros H. apply ltb_ge in H. now rewrite H.
  - apply sentimentRisk_range.
Qed.

Lemma lexicon_functional (lexicon : list (string * list jsstring))
    (c : string) (ks ks' : list jsstring) :
  NoDup lexicon.*1 → (c, ks) ∈ lexicon → (c, ks') ∈ lexicon → ks = ks'.
Proof.
  induction lexicon as [| [d l] lex IH]; intros Hnd H H'.
  - now apply elem_of_nil in H.
  - rewrite fmap_cons in Hnd. cbn [fst] in Hnd.
    apply NoDup_cons in Hnd as [Hd Hnd].
    apply elem_of_cons in H as [H | H];
      apply elem_of_cons in H' as [H' | H'].
    + congruence.
    + injection H as -> ->. exfalso. apply Hd.
      apply (list_elem_of_fmap_2 fst) in H'. exact H'.
    + injection H' as -> ->. exfalso. apply Hd.
      apply (list_elem_of_fmap_2 fst) in H. exact H.
    + now apply IH.
Qed.

Lemma analyzeString_flags (content : jsstring) (c : string) :
  c ∈ flags (analyzeString content)
  ↔ (∃ ks, (c, ks) ∈ RISK_PATTERNS
           ∧ matchedTerms (toLowerCase content) ks ≠ [])
    ∨ (c = "excessive_caps" ∧ shouting content)
    ∨ (c = "spam_pattern" ∧ hasDotRun5 content).
Proof.
  unfold analyzeString; cbn [flags].
  rewrite uniq_elem_of, accumulate_flags, elem_of_nil. tauto.
Qed.

(** C5.  For a category of the lexicon, the terms that occur in the
    lowercased content as substrings are listed once each, and their
    number is the match count.  When it is positive the assessment has
    the category among its flags and an entry holding the count and the
    matched terms, and the iteration adds [min(count × 0.15, 0.5)] to the
    accumulator; when it is zero the category leaves no trace.  The
    accumulator is the sum of the sentiment term, one such term per
    category and the two heuristics.  (The empty string is answered by
    the guard; no term occurs in it.) *)
Theorem category_matching
    (content : jsstring) (category : string) (terms : list jsstring) :
  toLowerCase [] = [] →
  (category, terms) ∈ RISK_PATTERNS →
  let lower := toLowerCase content in
  let matched := matchedTerms lower terms in
  let n := Z.of_nat (length matched) in
  (NoDup matched
   ∧ ∀ k, k ∈ matched
          ↔ k ∈ terms ∧ ∃ pre post, lower = pre ++ k ++ post)
  ∧ (∃ a, analyzeMessage (Str content) = Normal a
          ∧ ((0 < n)%Z →
             category ∈ flags a
             ∧ categories a !! category
               = Some {| count := n; words := matched |})
          ∧ (n = 0%Z →
             (category ∉ flags a) ∧ categories a !! category = None))
  ∧ ((0 < n)%Z → ∀ st,
       totalRisk (scanCategory lower st (category, terms))
       = totalRisk st + Qmin (inject_Z n * 0.15) 0.5)
  ∧ (n = 0%Z → ∀ st, scanCategory lower st (category, terms) = st)
  ∧ categoryRisk lower terms
    = (if (0 <? n)%Z then Qmin (inject_Z n * 0.15) 0.5 else 0)
  ∧ (content ≠ [] →
     totalRisk (accumulate content)
     == sentimentRisk (sentiment_analyze content)
        + lexiconRisk lower RISK_PATTERNS
        + capsRisk content + spamRisk content).
Proof.
  intros Hnil Hin lower matched n.
  destruct (RISK_PATTERNS_terms category terms Hin) as [Hnd Hne].
  split; [| split; [| split; [| split; [| split]]]].
  - split; [now apply NoDup_filter |].
    intros k. unfold matched, matchedTerms.
    rewrite list_elem_of_filter, includes_substring. tauto.
  - destruct content as [| c0 content].
    + exists zeroAssessment. split; [reflexivity |].
      assert (n = 0%Z) as Hn.
      { unfold n, matched, lower. rewrite Hnil.
        now rewrite (matchedTerms_nil terms Hne). }
      split; [lia |]. intros _. split; [apply not_elem_of_nil | reflexivity].
    + exists (analyzeString (c0 :: content)). split; [reflexivity |].
      unfold analyzeString at 2 4; cbn [categories].
      rewrite (accumulate_categories _ _ _ Hin). fold lower matched n.
      split.
      * intros Hn. apply Z.ltb_lt in Hn as Hb. rewrite Hb.
        split; [| reflexivity].
        apply analyzeString_flags. left. exists terms.
        split; [exact Hin |]. now apply matchedTerms_positive.
      * intros Hn. rewrite Hn. split; [| reflexivity].
        rewrite analyzeString_flags.
        destruct (RISK_PATTERNS_not_tag category terms Hin) as [Hc Hs].
        intros [(ks & Hks & Hm) | [[-> _] | [-> _]]]; try congruence.
        rewrite (lexicon_functional _ _ _ _ RISK_PATTERNS_NoDup Hks Hin)
          in Hm.
        apply matchedTerms_positive in Hm. fold lower matched n in Hm.
        rewrite Hn in Hm. discriminate.
  - intros Hn st. rewrite scanCategory_step. fold lower matched n.
    apply Z.ltb_lt in Hn. rewrite Hn. cbn [totalRisk].
    unfold categoryRisk. cbn zeta. fold lower matched n. now rewrite Hn.
  - intros Hn st. rewrite scanCategory_step. fold lower matched n.
    now rewrite Hn.
  - reflexivity.
  - intros _. apply accumulate_totalRisk.
Qed.

(** The two behavioural checks as the code performs them, on UTF-16 code
    units.  (a) A content of more than ten code units, more than half of
    them in A-Z, is flagged [excessive_caps] and the check adds 0.1 to the
    accumulator.  (b) A content in which a code unit other than a line
    terminator occurs five times in a row is flagged [spam_pattern] and
    the check adds 0.05.  Neither flag is set otherwise, and the two
    amounts enter the accumulator as separate summands, each decided by
    its own condition. *)
Theorem behavioural_heuristics (content : jsstring) :
  (∃ a, analyzeMessage (Str content) = Normal a
        ∧ ("excessive_caps" ∈ flags a ↔ shouting content)
        ∧ ("spam_pattern" ∈ flags a ↔ hasDotRun5 content))
  ∧ (shouting content → ∀ st,
       totalRisk (capsCheck content st) = totalRisk st + 0.1)
  ∧ (hasDotRun5 content → ∀ st,
       totalRisk (spamCheck content st) = totalRisk st + 0.05)
  ∧ (totalRisk (accumulate content)
     == sentimentRisk (sentiment_analyze content)
        + lexiconRisk (toLowerCase content) RISK_PATTERNS
        + capsRisk content + spamRisk content
     ∧ (shouting content ∧ capsRisk content = 0.1
        ∨ ¬ shouting content ∧ capsRisk content = 0)
     ∧ (hasDotRun5 content ∧ spamRisk content = 0.05
        ∨ ¬ hasDotRun5 content ∧ spamRisk content = 0)).
Proof.
  split; [| split; [| split; [| split; [| split]]]].
  - destruct content as [| c0 content].
    + exists zeroAssessment. split; [reflexivity |]. cbn [flags].
      rewrite !elem_of_nil. split; split; try tauto.
      * intros [_ H]. cbn in H. lia.
      * intros (pre & c & post & _ & H). destruct pre; discriminate.
    + exists (analyzeString (c0 :: content)). split; [reflexivity |].
      rewrite !analyzeString_flags. split; split.
      * intros [(ks & Hks & _) | [[_ H] | [[=] _]]]; [| exact H].
        now destruct (RISK_PATTERNS_not_tag _ _ Hks).
      * intros H. right. now left.
      * intros [(ks & Hks & _) | [[[=] _] | [_ H]]]; [| exact H].
        now destruct (RISK_PATTERNS_not_tag _ _ Hks).
      * intros H. right. now right.
  - intros H st. apply capsCheck_condition in H.
    unfold capsCheck. now rewrite H.
  - intros H st. apply test_repeat_run in H.
    unfold spamCheck. now rewrite H.
  - apply accumulate_totalRisk.
  - apply capsRisk_cases.
  - apply spamRisk_cases.
Qed.

End ClassifierFacts.

Lemma category_matching_kill_destroy :
  Sample.asciiLower [] = []
  ∧ ("violence", Sample.violenceTerms) ∈ RISK_PATTERNS
  ∧ ∃ a, analyzeMessage (Sample.polarity (-6)) Sample.asciiLower Sample.clock
           (Str Sample.killDestroy) = Normal a
         ∧ "violence" ∈ flags a
         ∧ categories a !! "violence"
           = Some {| count := 2; words := [lit "kill"; lit "destroy"] |}.
Proof.
  assert (Hin : ("violence", Sample.violenceTerms) ∈ RISK_PATTERNS)
    by apply list_elem_of_here.
  split; [reflexivity |]. split; [exact Hin |].
  destruct (category_matching (Sample.polarity (-6)) Sample.asciiLower
              Sample.clock Sample.killDestroy "violence"
              Sample.violenceTerms eq_refl Hin)
    as (_ & (a & Ha & Hpos & _) & _).
  exists a. split; [exact Ha |].
  apply Hpos. vm_compute. reflexivity.
Defined.

(** Five line feeds in a row are a character repeated five times, yet the
    dot of the regular expression does not match a line feed, so the flag
    is not set and nothing is added, whatever the sentiment and
    lower-casing primitives do. *)
Lemma spam_pattern_misses_blank_lines :
  hasRun5 Sample.blankLines
  ∧ spamRisk Sample.blankLines = 0
  ∧ ∀ sentiment_analyze toLowerCase now,
      ∃ a, analyzeMessage sentiment_analyze toLowerCase now
             (Str Sample.blankLines) = Normal a
           ∧ "spam_pattern" ∉ flags a.
Proof.
  split; [now exists [], 0x0A%N, [] |]. split; [reflexivity |].
  intros sa tl now. eexists. split; [reflexivity |].
  rewrite analyzeString_flags.
  intros [(ks & Hks & _) | [[[=] _] | [_ H]]].
  - now destruct (RISK_PATTERNS_not_tag _ _ Hks).
  - apply test_repeat_run in H. vm_compute in H. discriminate.
Qed.

(** C6.  The check for repeated characters misses line terminators.  In
    [spacedOut] a line feed occurs five times in a row, so the content has
    a character repeated five times consecutively; the code returns no
    [spam_pattern] flag for it and the check leaves the accumulator as it
    was.  For [stretched], the same content with the letter o in place of
    the line feed, the code sets the flag and adds 0.05.  Both hold
    whatever the sentiment and lower-casing primitives do. *)
Theorem spam_pattern_misses_line_feeds :
  hasRun5 spacedOut
  ∧ (∀ sentiment_analyze toLowerCase now,
       ∃ a, analyzeMessage sentiment_analyze toLowerCase now (Str spacedOut)
            = Normal a
            ∧ "spam_pattern" ∉ flags a)
  ∧ (∀ st, spamCheck spacedOut st = st)
  ∧ hasRun5 stretched
  ∧ (∀ sentiment_analyze toLowerCase now,
       ∃ a, analyzeMessage sentiment_analyze toLowerCase now (Str stretched)
            = Normal a
            ∧ "spam_pattern" ∈ flags a)
  ∧ (∀ st, totalRisk (spamCheck stretched st) = totalRisk st + 0.05).
Proof.
  split; [now exists (lit "hi"), 0x0A%N, (lit "there") |].
  split.
  { intros sa tl now. eexists. split; [reflexivity |].
    rewrite analyzeString_flags.
    intros [(ks & Hks & _) | [[[=] _] | [_ H]]].
    - now destruct (RISK_PATTERNS_not_tag _ _ Hks).
    - apply test_repeat_run in H. vm_compute in H. discriminate. }
  split; [reflexivity |].
  split; [now exists (lit "hi"), 0x6F%N, (lit "there") |].
  split; [| reflexivity].
  intros sa tl now. eexists. split; [reflexivity |].
  apply analyzeString_flags. right. right. split; [reflexivity |].
  now apply test_repeat_run.
Qed.

(** ** The aggregator: chains of updates *)

Lemma bumpFlag_lookup (h : gmap string Z) (flag g : string) :
  default 0%Z (bumpFlag h flag !! g)
  = (default 0%Z (h !! g) + if decide (flag = g) then 1 else 0)%Z.
Proof.
  unfold bumpFlag. destruct (decide (flag = g)) as [<- | Hne].
  - rewrite lookup_insert_eq. cbn [default].
    destruct (h !! flag) as [n |] eqn:Hn.
    + destruct (Z.eqb_spec n 0) as [-> | Hz].
      * now rewrite lookup_insert_eq.
      * now rewrite Hn.
    + now rewrite lookup_insert_eq.
  - rewrite lookup_insert_ne by exact Hne.
    rewrite Z.add_0_r.
    destruct (h !! flag) as [n |]; [destruct (n =? 0)%Z |];
      now rewrite ?lookup_insert_ne by exact Hne.
Qed.

Lemma bumpFlags_lookup (fl : list string) (h : gmap string Z) (g : string) :
  default 0%Z (fold_left bumpFlag fl h !! g)
  = (default 0%Z (h !! g)
     + Z.of_nat (length (filter (λ f, f = g) fl)))%Z.
Proof.
  revert h. induction fl as [| f fl IH]; intros h; cbn [fold_left].
  - cbn. lia.
  - rewrite IH, bumpFlag_lookup, filter_cons.
    destruct (decide (f = g)); cbn [length]; lia.
Qed.

Lemma updateRiskProfile_flagCount
    (env : Env) (now : Timestamp) (p : RiskProfile) (a : Assessment)
    (g : string) :
  flagCount (updateRiskProfile env now (Some p) a) g
  = (flagCount p g + Z.of_nat (length (filter (λ f, f = g) (flags a))))%Z.
Proof. unfold flagCount, updateRiskProfile; cbn [flagHistory]. apply bumpFlags_lookup. Qed.

Lemma bounded_default : bounded defaultProfile.
Proof. vm_compute. repeat split; congruence. Qed.

Lemma bounded_update
    (env : Env) (now : Timestamp) (p : RiskProfile) (a : Assessment) :
  bounded p → 0 <= riskScore a <= 1 →
  bounded (updateRiskProfile env now (Some p) a).
Proof.
  intros (Hn & [Ht0 Ht1] & _) [Hr0 Hr1].
  unfold bounded, updateRiskProfile;
    cbn [messageCount totalRiskScore averageRiskScore]; unfold decayFactor.
  assert (Hq : 0 <= inject_Z (messageCount p)).
  { change 0 with (inject_Z 0). rewrite <- Zle_Qle. exact Hn. }
  rewrite inject_Z_plus. change (inject_Z 1) with 1.
  split; [lia |]. split; [split; lra |]. split.
  - apply Qle_shift_div_l; lra.
  - apply Qle_shift_div_r; lra.
Qed.

Lemma reachable_bounded (env : Env) (p : RiskProfile) :
  reachable env p → bounded p.
Proof.
  induction 1 as [| p a now _ IH Hr].
  - apply bounded_default.
  - now apply bounded_update.
Qed.

(** C4.  Along any chain of updates that starts at the default profile,
    with every score in [0, 1]: the average of each profile of the chain
    lies in [0, 1], and a further update does not lower the message count
    (it raises it by one) nor the count of any flag, and again leaves the
    average in [0, 1]. *)
Theorem reachable_invariant (env : Env) (p : RiskProfile) :
  reachable env p →
  (0 <= messageCount p)%Z
  ∧ 0 <= averageRiskScore p <= 1
  ∧ ∀ now a, 0 <= riskScore a <= 1 →
      let p' := updateRiskProfile env now (Some p) a in
      reachable env p'
      ∧ (messageCount p <= messageCount p')%Z
      ∧ messageCount p' = (messageCount p + 1)%Z
      ∧ (∀ f, (flagCount p f <= flagCount p' f)%Z)
      ∧ 0 <= averageRiskScore p' <= 1.
Proof.
  intros Hp. destruct (reachable_bounded env p Hp) as (Hn & _ & Havg).
  split; [exact Hn |]. split; [exact Havg |].
  intros now a Hr p'.
  assert (Hp' : reachable env p') by now apply reachable_update.
  split; [exact Hp' |].
  split; [unfold p', updateRiskProfile; cbn [messageCount]; lia |].
  split; [reflexivity |].
  split.
  - intros f. unfold p'. rewrite updateRiskProfile_flagCount. lia.
  - apply (reachable_bounded env p' Hp').
Qed.

Lemma reachable_invariant_one_message :
  reachable envDefault Sample.oneMessage
  ∧ 0 <= averageRiskScore Sample.oneMessage <= 1
  ∧ (flagCount Sample.oneMessage "violence"
     <= flagCount
          (updateRiskProfile envDefault Sample.clock (Some Sample.oneMessage)
             (Sample.scoring 1 ["violence"; "hate"]))
          "violence")%Z.
Proof.
  assert (Hr : reachable envDefault Sample.oneMessage).
  { apply reachable_update; [apply reachable_default |].
    cbn. split; discriminate. }
  destruct (reachable_invariant envDefault Sample.oneMessage Hr)
    as (_ & Havg & Hstep).
  split; [exact Hr |]. split; [exact Havg |].
  assert (Hs : 0 <= riskScore (Sample.scoring 1 ["violence"; "hate"]) <= 1)
    by (cbn; split; discriminate).
  destruct (Hstep Sample.clock _ Hs) as (_ & _ & _ & Hf & _).
  apply Hf.
Defined.

(** ** The tests of the repository, replayed on the model *)

Example test_empty_message :
  analyzeMessage (Sample.polarity 0) Sample.asciiLower Sample.clock (Str [])
  = Normal zeroAssessment.
Proof. reflexivity. Qed.

Example test_violence_keywords :
  let a := analyzeString (Sample.polarity (-6)) Sample.asciiLower
             Sample.clock Sample.killDestroy in
  flags a = ["violence"] ∧ riskScore a == 0.6.
Proof. now vm_compute. Qed.

Example test_excessive_caps :
  flags (analyzeString (Sample.polarity 0) Sample.asciiLower Sample.clock
           Sample.allCaps)
  = ["excessive_caps"].
Proof. now vm_compute. Qed.

Example test_spam_pattern :
  flags (analyzeString (Sample.polarity 0) Sample.asciiLower Sample.clock
           Sample.hellooo)
  = ["spam_pattern"].
Proof. now vm_compute. Qed.

Example test_blank_lines :
  flags (analyzeString (Sample.polarity 0) Sample.asciiLower Sample.clock
           Sample.blankLines)
  = [].
Proof. now vm_compute. Qed.

Example test_create_profile :
  messageCount
    (updateRiskProfile envDefault Sample.clock None
       (Sample.scoring 0.5 ["violence"]))
  = 1%Z.
Proof. reflexivity. Qed.

Example test_high_risk_counting :
  highRiskCount
    (updateRiskProfile envDefault Sample.clock (Some Sample.fiveMessages)
       (Sample.scoring 0.85 ["violence"])) = 1%Z
  ∧ highRiskCount
      (updateRiskProfile envDefault Sample.clock (Some Sample.fiveMessages)
         (Sample.scoring 0.79 [])) = 0%Z.
Proof. now vm_compute. Qed.

Example test_risk_levels :
  getRiskLevel envDefault 0.29 = "Low"
  ∧ getRiskLevel envDefault 0.3 = "Medium"
  ∧ getRiskLevel envDefault 0.6 = "High"
  ∧ getRiskLevel envDefault 0.8 = "Critical"
  ∧ getRiskLevel envDefault 1.0 = "Critical".
Proof. now vm_compute. Qed.

(** * Further properties of the classifier *)

Lemma uniq_NoDup (seen l : list string) : NoDup (uniq seen l).
Proof.
  revert seen. induction l as [| x l IH]; intros seen; cbn [uniq].
  - constructor.
  - destruct (bool_decide_reflect (x ∈ seen)); [apply IH |].
    apply NoDup_cons. split; [| apply IH].
    rewrite uniq_elem_of, not_elem_of_cons. tauto.
Qed.

Lemma lexiconRisk_unmatched (lower : jsstring) lexicon :
  (∀ c ks, (c, ks) ∈ lexicon → matchedTerms lower ks = []) →
  lexiconRisk lower lexicon == 0.
Proof.
  induction lexicon as [| [c ks] lex IH]; intros H;
    cbn [lexiconRisk fold_right]; [reflexivity |].
  fold (lexiconRisk lower lex). rewrite IH.
  - unfold categoryRisk. cbn [snd].
    rewrite (H c ks) by apply list_elem_of_here. cbn. reflexivity.
  - intros d l Hd. apply (H d l). now apply list_elem_of_further.
Qed.

Lemma categoryRisk_min (lower : jsstring) (terms : list jsstring) :
  categoryRisk lower terms
  == Qmin (inject_Z (Z.of_nat (length (matchedTerms lower terms))) * 0.15)
       0.5.
Proof.
  unfold categoryRisk. cbn zeta.
  destruct (matchedTerms lower terms) as [| k m]; [reflexivity |].
  destruct (Z.ltb_spec 0 (Z.of_nat (length (k :: m)))); [reflexivity |].
  cbn [length] in *. lia.
Qed.

Lemma categoryRisk_le_half (lower : jsstring) (terms : list jsstring) :
  categoryRisk lower terms <= 0.5.
Proof. rewrite categoryRisk_min. apply Q.le_min_r. Qed.

Section ClassifierMore.

Variable sentiment_analyze : jsstring -> Q.
Variable toLowerCase : jsstring -> jsstring.
Variable now : Timestamp.

Local Abbreviation accumulate := (accumulate sentiment_analyze toLowerCase).
Local Abbreviation analyzeString :=
  (analyzeString sentiment_analyze toLowerCase now).
Local Abbreviation analyzeMessage :=
  (analyzeMessage sentiment_analyze toLowerCase now).

(** The two ways out of [analyzeMessage]. *)
Lemma analyzeMessage_cases (content : value) :
  (analyzeMessage content = Normal zeroAssessment
   ∧ ∀ s, content = Str s → s = [])
  ∨ ∃ s, content = Str s ∧ s ≠ []
         ∧ analyzeMessage content = Normal (analyzeString s).
Proof.
  destruct content as [| | b | x | | [| c s] |];
    try (left; split; [now apply analyzeMessage_degenerate; intros ? [=]
                      | now intros ? [=]]).
  right. now exists (c :: s).
Qed.

Lemma analyzeString_flags_known (content : jsstring) (f : string) :
  f ∈ flags (analyzeString content) → f ∈ flagNames.
Proof.
  rewrite analyzeString_flags. unfold flagNames. rewrite elem_of_app.
  intros [(ks & Hks & _) | [[-> _] | [-> _]]].
  - left. apply (list_elem_of_fmap_2 fst) in Hks. exact Hks.
  - right. apply list_elem_of_here.
  - right. apply list_elem_of_further, list_elem_of_here.
Qed.

Lemma analyzeString_unflagged (content : jsstring) :
  (∀ c, c ∈ flags (analyzeString content) → c ∉ RISK_PATTERNS.*1) →
  lexiconRisk (toLowerCase content) RISK_PATTERNS == 0.
Proof.
  intros H. apply lexiconRisk_unmatched. intros c ks Hks.
  destruct (matchedTerms (toLowerCase content) ks) eqn:Hm; [reflexivity |].
  exfalso. apply (H c).
  - apply analyzeString_flags. left. exists ks. split; [exact Hks |].
    now rewrite Hm.
  - apply (list_elem_of_fmap_2 fst) in Hks. exact Hks.
Qed.

(** X1.  The flags of an assessment are pairwise different, each is one of
    the five category names or one of the two behavioural tags, and so
    there are at most seven of them. *)
Theorem flags_distinct_and_known (content : value) :
  ∃ a, analyzeMessage content = Normal a
       ∧ NoDup (flags a)
       ∧ (∀ f, f ∈ flags a → f ∈ flagNames)
       ∧ (length (flags a) <= 7)%nat.
Proof.
  assert (Hlen : ∀ l : list string,
             NoDup l → (∀ f, f ∈ l → f ∈ flagNames) → (length l <= 7)%nat).
  { intros l Hnd Hsub.
    apply (submseteq_length l flagNames). now apply NoDup_submseteq. }
  destruct (analyzeMessage_cases content) as [[-> _] | (s & _ & _ & ->)];
    eexists; (split; [reflexivity |]).
  - cbn [flags zeroAssessment]. split; [constructor |].
    split; [intros f Hf; now apply elem_of_nil in Hf | cbn; lia].
  - assert (Hnd : NoDup (flags (analyzeString s)))
      by (unfold analyzeString; cbn [flags]; apply uniq_NoDup).
    split; [exact Hnd |]. split; [apply analyzeString_flags_known |].
    apply Hlen; [exact Hnd | apply analyzeString_flags_known].
Qed.

(** X2.  [categories] has an entry exactly for the flags that are category
    names.  An entry's count is the number of its words and at least one;
    its words are different terms of that category, each occurring in the
    lowercased content. *)
Theorem categories_mirror_flags (content : jsstring) :
  ∃ a, analyzeMessage (Str content) = Normal a
       ∧ (∀ c, is_Some (categories a !! c)
               ↔ c ∈ flags a ∧ c ∈ RISK_PATTERNS.*1)
       ∧ (∀ c m, categories a !! c = Some m →
            count m = Z.of_nat (length (words m))
            ∧ (1 <= count m)%Z
            ∧ NoDup (words m)
            ∧ ∃ terms, (c, terms) ∈ RISK_PATTERNS
                ∧ ∀ w, w ∈ words m →
                    w ∈ terms
                    ∧ ∃ pre post, toLowerCase content = pre ++ w ++ post).
Proof.
  destruct content as [| c0 content].
  { exists zeroAssessment. split; [reflexivity |]. cbn [categories flags zeroAssessment].
    split.
    - intros c. rewrite lookup_empty, elem_of_nil.
      split; [intros [? [=]] | tauto].
    - intros c m. rewrite lookup_empty. discriminate. }
  set (s := c0 :: content).
  exists (analyzeString s). split; [reflexivity |].
  assert (Hlook : ∀ c,
    ((c ∉ RISK_PATTERNS.*1) ∧ categories (analyzeString s) !! c = None)
    ∨ ∃ terms, (c, terms) ∈ RISK_PATTERNS
        ∧ categories (analyzeString s) !! c
          = if (0 <? Z.of_nat (length (matchedTerms (toLowerCase s) terms)))%Z
            then Some {| count := Z.of_nat
                           (length (matchedTerms (toLowerCase s) terms));
                         words := matchedTerms (toLowerCase s) terms |}
            else None).
  { intros c. destruct (decide (c ∈ RISK_PATTERNS.*1)) as [Hc | Hc].
    - right. apply list_elem_of_fmap in Hc as ([c' terms] & -> & Hin).
      exists terms. split; [exact Hin |].
      unfold analyzeString; cbn [categories fst].
      now apply accumulate_categories.
    - left. split; [exact Hc |].
      unfold analyzeString, accumulate; cbn [categories].
      rewrite spamCheck_categories, capsCheck_categories.
      now rewrite scan_categories_other by exact Hc. }
  split.
  - intros c. destruct (Hlook c) as [[Hc ->] | (terms & Hin & ->)].
    + split; [intros [? [=]] | tauto].
    + assert (c ∈ RISK_PATTERNS.*1) as Hc
        by (apply (list_elem_of_fmap_2 fst) in Hin; exact Hin).
      rewrite analyzeString_flags.
      destruct (0 <? _)%Z eqn:Hn.
      * apply matchedTerms_positive in Hn. split; [| eauto].
        intros _. split; [| exact Hc]. left. now exists terms.
      * apply not_true_iff_false in Hn. rewrite matchedTerms_positive in Hn.
        split; [intros [? [=]] |]. intros [[(ks & Hks & Hm) | H] _].
        -- rewrite (lexicon_functional _ _ _ _ RISK_PATTERNS_NoDup Hks Hin)
             in Hm. contradiction.
        -- destruct (RISK_PATTERNS_not_tag c terms Hin).
           destruct H as [[-> _] | [-> _]]; congruence.
  - intros c m. destruct (Hlook c) as [[_ ->] | (terms & Hin & ->)];
      [discriminate |].
    destruct (0 <? _)%Z eqn:Hn; [| discriminate].
    intros [= <-]. cbn [count words].
    apply Z.ltb_lt in Hn.
    destruct (RISK_PATTERNS_terms c terms Hin) as [Hnd _].
    split; [reflexivity |]. split; [lia |].
    split; [now apply NoDup_filter |].
    exists terms. split; [exact Hin |].
    intros w. unfold matchedTerms.
    rewrite list_elem_of_filter, includes_substring. tauto.
Qed.

(** X3.  An assessment without any flag scores exactly what the sentiment
    channel contributes: at most 0.3, and 0 when the polarity is not
    negative. *)
Theorem unflagged_score_is_sentiment (content : value) :
  ∃ a, analyzeMessage content = Normal a
       ∧ (flags a = [] →
          riskScore a == sentimentRisk (sentiment a)
          ∧ riskScore a <= 0.3
          ∧ (0 <= sentiment a → riskScore a == 0)).
Proof.
  assert (Hs : ∀ r p, r == sentimentRisk p →
             r == sentimentRisk p ∧ r <= 0.3 ∧ (0 <= p → r == 0)).
  { intros r p Hr. split; [exact Hr |]. rewrite Hr.
    split; [apply sentimentRisk_range |].
    intros Hp. unfold sentimentRisk. apply ltb_ge in Hp. now rewrite Hp. }
  destruct (analyzeMessage_cases content) as [[-> _] | (s & _ & _ & ->)];
    eexists; (split; [reflexivity |]); intros Hf.
  - apply Hs. reflexivity.
  - apply Hs. unfold analyzeString at 1 2; cbn [riskScore sentiment].
    assert (Hnone : ∀ c, c ∉ flags (analyzeString s))
      by (intros c; rewrite Hf; apply not_elem_of_nil).
    assert (Hlex : lexiconRisk (toLowerCase s) RISK_PATTERNS == 0).
    { apply analyzeString_unflagged. intros c Hc. now apply Hnone in Hc. }
    assert (Hcaps : capsRisk s = 0).
    { destruct (capsRisk_cases s) as [[H _] | [_ H]]; [| exact H].
      exfalso. apply (Hnone "excessive_caps").
      apply analyzeString_flags. right. now left. }
    assert (Hspam : spamRisk s = 0).
    { destruct (spamRisk_cases s) as [[H _] | [_ H]]; [| exact H].
      exfalso. apply (Hnone "spam_pattern").
      apply analyzeString_flags. right. now right. }
    assert (Htot : totalRisk (accumulate s)
                   == sentimentRisk (sentiment_analyze s)).
    { rewrite accumulate_totalRisk, Hlex, Hcaps, Hspam. ring. }
    rewrite Htot. apply Q.min_l.
    pose proof (sentimentRisk_range (sentiment_analyze s)). lra.
Qed.

(** X4.  An assessment none of whose flags is a category name scores at
    most 0.45 (sentiment, caps and repetition together), so it passes no
    alert gate whose high threshold is above 0.45: with the default
    thresholds an alert needs a match in the lexicon. *)
Theorem alert_needs_lexicon_match (content : value) :
  ∃ a, analyzeMessage content = Normal a
       ∧ ((∀ c, c ∈ flags a → c ∉ RISK_PATTERNS.*1) →
          riskScore a <= 0.45
          ∧ (∀ env, 0.45 < thresholdHigh env → shouldAlert env a = false)
          ∧ shouldAlert envDefault a = false).
Proof.
  assert (Hgate : ∀ a : Assessment, riskScore a <= 0.45 →
            riskScore a <= 0.45
            ∧ (∀ env, 0.45 < thresholdHigh env → shouldAlert env a = false)
            ∧ shouldAlert envDefault a = false).
  { intros a Ha. split; [exact Ha |].
    assert (∀ env, 0.45 < thresholdHigh env → shouldAlert env a = false) as H.
    { intros env Henv. apply geb_lt. lra. }
    split; [exact H |]. apply H. reflexivity. }
  destruct (analyzeMessage_cases content) as [[-> _] | (s & _ & _ & ->)];
    eexists; (split; [reflexivity |]); intros Hf; apply Hgate.
  - cbn. discriminate.
  - unfold analyzeString; cbn [riskScore].
    eapply Qle_trans; [apply Q.le_min_l |].
    rewrite accumulate_totalRisk, (analyzeString_unflagged s Hf).
    pose proof (sentimentRisk_range (sentiment_analyze s)).
    destruct (capsRisk_cases s) as [[_ Hc] | [_ Hc]];
    destruct (spamRisk_cases s) as [[_ Hp] | [_ Hp]];
      rewrite Hc, Hp; lra.
Qed.

End ClassifierMore.

(** X5.  One iteration of the loop over the lexicon adds
    [min(0.15 × n, 0.5)] for [n] matched terms, also when [n] is 0; the
    amount is 0.15 per term up to three terms and 0.5 from four terms on. *)
Theorem scanCategory_saturates (lower : jsstring) (st : Scan)
    (category : string) (terms : list jsstring) :
  let n := Z.of_nat (length (matchedTerms lower terms)) in
  let st' := scanCategory lower st (category, terms) in
  totalRisk st' == totalRisk st + Qmin (inject_Z n * 0.15) 0.5
  ∧ ((n <= 3)%Z → totalRisk st' == totalRisk st + inject_Z n * 0.15)
  ∧ ((4 <= n)%Z → totalRisk st' == totalRisk st + 0.5)
  ∧ totalRisk st <= totalRisk st' <= totalRisk st + 0.5.
Proof.
  intros n st'.
  assert (H : totalRisk st' == totalRisk st + Qmin (inject_Z n * 0.15) 0.5).
  { unfold st'. rewrite scanCategory_step.
    destruct (0 <? _)%Z eqn:Hn; cbn [totalRisk].
    - now rewrite categoryRisk_min.
    - apply Z.ltb_ge in Hn. assert (n = 0%Z) as Hz by (unfold n; lia).
      fold n. rewrite Hz.
      assert (Hmin : Qmin (inject_Z 0 * 0.15) 0.5 == 0) by reflexivity.
      rewrite Hmin. ring. }
  assert (Hn0 : 0 <= inject_Z n).
  { change 0 with (inject_Z 0). rewrite <- Zle_Qle. unfold n. lia. }
  split; [exact H |]. rewrite H. split; [| split].
  - intros Hn. rewrite Zle_Qle in Hn. change (inject_Z 3) with 3 in Hn.
    rewrite Q.min_l by lra. reflexivity.
  - intros Hn. rewrite Zle_Qle in Hn. change (inject_Z 4) with 4 in Hn.
    rewrite Q.min_r by lra. reflexivity.
  - pose proof (Q.le_min_r (inject_Z n * 0.15) 0.5).
    assert (0 <= Qmin (inject_Z n * 0.15) 0.5) by (apply Q.min_glb; lra).
    split; lra.
Qed.

(** What any returned assessment satisfies, in the form the chains of
    updates need. *)
Lemma analyzeMessage_result
    (sentiment_analyze : jsstring -> Q) (toLowerCase : jsstring -> jsstring)
    (now : Timestamp) (content : value) (a : Assessment) :
  analyzeMessage sentiment_analyze toLowerCase now content = Normal a →
  0 <= riskScore a <= 1
  ∧ NoDup (flags a)
  ∧ ∀ f, f ∈ flags a → f ∈ flagNames.
Proof.
  destruct (analyzeMessage_cases sentiment_analyze toLowerCase now content)
    as [[-> _] | (s & _ & _ & ->)]; intros [= <-].
  - cbn. split; [split; discriminate |]. split; [constructor |].
    intros f Hf. now apply elem_of_nil in Hf.
  - split; [| split].
    + unfold analyzeString; cbn [riskScore]. split.
      * apply Q.min_glb; [apply accumulate_nonneg | lra].
      * apply Q.le_min_r.
    + unfold analyzeString; cbn [flags]. apply uniq_NoDup.
    + apply analyzeString_flags_known.
Qed.

(** * Further properties of the aggregator *)

Lemma bumpFlag_lookup_ne (h : gmap string Z) (flag g : string) :
  flag ≠ g → bumpFlag h flag !! g = h !! g.
Proof.
  intros Hne. unfold bumpFlag. rewrite lookup_insert_ne by exact Hne.
  destruct (h !! flag) as [n |]; [destruct (n =? 0)%Z |];
    now rewrite ?lookup_insert_ne by exact Hne.
Qed.

Lemma bumpFlags_lookup_other (fl : list string) (h : gmap string Z)
    (g : string) :
  g ∉ fl → fold_left bumpFlag fl h !! g = h !! g.
Proof.
  revert h. induction fl as [| f fl IH]; intros h Hg; cbn [fold_left];
    [reflexivity |].
  apply not_elem_of_cons in Hg as [Hne Hg].
  rewrite IH by exact Hg. apply bumpFlag_lookup_ne. congruence.
Qed.

Lemma occurrences_NoDup (fl : list string) (g : string) :
  NoDup fl → (length (filter (λ f, f = g) fl) <= 1)%nat.
Proof.
  induction 1 as [| x l Hx Hnd IH]; [cbn; lia |].
  rewrite filter_cons. destruct (decide (x = g)) as [-> | Hne]; [| exact IH].
  cbn [length].
  destruct (filter (λ f, f = g) l) as [| y m] eqn:Hf; [cbn; lia |].
  exfalso. assert (y ∈ filter (λ f, f = g) l) as Hy
    by (rewrite Hf; apply list_elem_of_here).
  apply list_elem_of_filter in Hy as [-> Hy]. contradiction.
Qed.

Lemma occurrences_positive (fl : list string) (g : string) :
  (0 < length (filter (λ f, f = g) fl))%nat → g ∈ fl.
Proof.
  destruct (filter (λ f, f = g) fl) as [| y m] eqn:Hf; [cbn; lia |].
  intros _. assert (y ∈ filter (λ f, f = g) fl) as Hy
    by (rewrite Hf; apply list_elem_of_here).
  now apply list_elem_of_filter in Hy as [-> Hy].
Qed.

Lemma oneMessage_reachable : reachable envDefault Sample.oneMessage.
Proof.
  apply reachable_update; [apply reachable_default |].
  cbn. split; discriminate.
Qed.

Lemma tracked_reachable (env : Env) (p : RiskProfile) :
  tracked env p → reachable env p.
Proof.
  induction 1 as [| p sa tl t1 t2 content a _ IH Ha].
  - apply reachable_default.
  - apply reachable_update; [exact IH |].
    now apply analyzeMessage_result in Ha as [Ha _].
Qed.

(** X6.  The update counts a message as high-risk exactly when the message
    handler raises an alert for it: both compare the score with the same
    threshold. *)
Theorem alert_iff_high_risk_counted
    (env : Env) (now : Timestamp) (p : RiskProfile) (a : Assessment) :
  let p' := updateRiskProfile env now (Some p) a in
  (shouldAlert env a = true ↔ highRiskCount p' = (highRiskCount p + 1)%Z)
  ∧ (shouldAlert env a = false ↔ highRiskCount p' = highRiskCount p).
Proof.
  cbn zeta. unfold shouldAlert, updateRiskProfile; cbn [highRiskCount].
  destruct (geb (riskScore a) (thresholdHigh env)); split; split;
    (reflexivity || discriminate || lia).
Qed.

(** X7.  In every profile of a chain of updates from the default profile
    the average is the total divided by the decayed count; the total stays
    below 20 (the sum of the geometric series of ratio 0.95), so the
    average times the decayed count stays below 20 as well. *)
Theorem reachable_average_coherent (env : Env) (p : RiskProfile) :
  reachable env p →
  averageRiskScore p
  == totalRiskScore p / (inject_Z (messageCount p) * 0.95 + 1)
  ∧ 0 <= totalRiskScore p < 20
  ∧ averageRiskScore p * (inject_Z (messageCount p) * 0.95 + 1) < 20.
Proof.
  intros Hp.
  assert (Htot : 0 <= totalRiskScore p < 20).
  { induction Hp as [| p a now _ IH Hr]; [cbn; lra |].
    unfold updateRiskProfile; cbn [totalRiskScore]; unfold decayFactor.
    lra. }
  assert (Havg : averageRiskScore p
                 == totalRiskScore p / (inject_Z (messageCount p) * 0.95 + 1)).
  { destruct Hp; reflexivity. }
  split; [exact Havg |]. split; [exact Htot |].
  rewrite Havg.
  pose proof (average_divisor_nonzero (messageCount p)) as Hd.
  unfold decayFactor in Hd.
  setoid_replace (totalRiskScore p / (inject_Z (messageCount p) * 0.95 + 1)
                  * (inject_Z (messageCount p) * 0.95 + 1))
    with (totalRiskScore p) using relation Qeq by (field; exact Hd).
  apply Htot.
Qed.

Lemma reachable_average_coherent_one_message :
  reachable envDefault Sample.oneMessage
  ∧ totalRiskScore Sample.oneMessage < 20.
Proof.
  split; [exact oneMessage_reachable |].
  apply (reachable_average_coherent envDefault Sample.oneMessage
           oneMessage_reachable).
Defined.

(** X8.  Along a chain of updates from the default profile the high-risk
    count is never negative and never exceeds the message count. *)
Theorem reachable_high_risk_bounded (env : Env) (p : RiskProfile) :
  reachable env p →
  (0 <= highRiskCount p <= messageCount p)%Z.
Proof.
  induction 1 as [| p a now _ IH Hr]; [cbn; lia |].
  unfold updateRiskProfile; cbn [highRiskCount messageCount].
  destruct (geb (riskScore a) (thresholdHigh env)); lia.
Qed.

Lemma reachable_high_risk_bounded_one_message :
  reachable envDefault Sample.oneMessage
  ∧ (0 <= highRiskCount Sample.oneMessage
       <= messageCount Sample.oneMessage)%Z.
Proof.
  split; [exact oneMessage_reachable |].
  apply (reachable_high_risk_bounded envDefault Sample.oneMessage
           oneMessage_reachable).
Defined.

(** X9.  A profile built from the default profile by at most five updates
    has [trendingUp] false, whatever the scores were: the trend is first
    computed for the sixth message. *)
Theorem reachable_no_early_trend (env : Env) (p : RiskProfile) :
  reachable env p →
  (messageCount p <= 5)%Z →
  trendingUp p = false.
Proof.
  induction 1 as [| p a now Hp IH Hr]; [reflexivity |].
  pose proof (reachable_bounded env p Hp) as (Hn & _).
  unfold updateRiskProfile; cbn [messageCount trendingUp]. intros H5.
  destruct (Z.ltb_spec 5 (messageCount p + 1)); [lia |].
  apply IH. lia.
Qed.

Lemma reachable_no_early_trend_one_message :
  reachable envDefault Sample.oneMessage
  ∧ (messageCount Sample.oneMessage <= 5)%Z
  ∧ trendingUp Sample.oneMessage = false.
Proof.
  assert (H5 : (messageCount Sample.oneMessage <= 5)%Z) by (cbn; lia).
  split; [exact oneMessage_reachable |]. split; [exact H5 |].
  apply (reachable_no_early_trend envDefault Sample.oneMessage
           oneMessage_reachable H5).
Defined.

(** X10.  When neither the flags of the assessment nor the flag asked
    about are names inherited from [Object.prototype], an update raises
    the count of the flag by the number of times it occurs in the
    assessment, creates an entry for every flag that occurs, and leaves
    the entry of every flag that does not occur as it was (present with
    the same count, or absent). *)
Theorem flag_history_counts_occurrences
    (env : Env) (now : Timestamp) (p : RiskProfile) (a : Assessment)
    (g : string) :
  (∀ f, f ∈ flags a → f ∉ inheritedNames) →
  g ∉ inheritedNames →
  let p' := updateRiskProfile env now (Some p) a in
  flagCount p' g
  = (flagCount p g + Z.of_nat (length (filter (λ f, f = g) (flags a))))%Z
  ∧ (g ∉ flags a → flagHistory p' !! g = flagHistory p !! g)
  ∧ (g ∈ flags a → is_Some (flagHistory p' !! g)).
Proof.
  intros _ _. cbn zeta. split; [apply updateRiskProfile_flagCount |].
  unfold updateRiskProfile; cbn [flagHistory]. split.
  - apply bumpFlags_lookup_other.
  - generalize (flagHistory p). induction (flags a) as [| f fl IH];
      intros h Hg; [now apply elem_of_nil in Hg |].
    cbn [fold_left]. destruct (decide (g ∈ fl)) as [Hin | Hout].
    + now apply IH.
    + apply elem_of_cons in Hg as [-> | Hg]; [| contradiction].
      rewrite bumpFlags_lookup_other by exact Hout.
      unfold bumpFlag. rewrite lookup_insert_eq. eauto.
Qed.

Lemma flag_history_counts_occurrences_violence :
  (∀ f, f ∈ ["violence"; "hate"] → f ∉ inheritedNames)
  ∧ ("violence" ∉ inheritedNames)
  ∧ flagCount
      (updateRiskProfile envDefault Sample.clock (Some Sample.oneMessage)
         (Sample.scoring 0.5 ["violence"; "hate"]))
      "violence"
    = 2%Z.
Proof.
  assert (Hsafe : ∀ f, f ∈ ["violence"; "hate"] → f ∉ inheritedNames).
  { intros f Hf.
    repeat (apply elem_of_cons in Hf as [-> | Hf];
            [apply (bool_decide_unpack _); vm_compute; exact I |]).
    now apply elem_of_nil in Hf. }
  assert (Hg : "violence" ∉ inheritedNames)
    by (apply (bool_decide_unpack _); vm_compute; exact I).
  split; [exact Hsafe |]. split; [exact Hg |].
  destruct (flag_history_counts_occurrences envDefault Sample.clock
              Sample.oneMessage (Sample.scoring 0.5 ["violence"; "hate"])
              "violence" Hsafe Hg) as [Hcount _].
  rewrite Hcount. vm_compute. reflexivity.
Defined.

(** X11.  For a profile built by the message handler (every assessment
    coming from [analyzeMessage]): it is one of the profiles of the chains
    above; the count of a flag lies between 0 and the message count, since
    an assessment names a flag at most once; and only the seven flag names
    of the classifier have a count other than 0. *)
Theorem tracked_flag_counts (env : Env) (p : RiskProfile) :
  tracked env p →
  reachable env p
  ∧ ∀ f, (0 <= flagCount p f <= messageCount p)%Z
         ∧ (flagCount p f ≠ 0%Z → f ∈ flagNames).
Proof.
  intros Hp. split; [now apply tracked_reachable |].
  induction Hp as [| p sa tl t1 t2 content a Hp IH Ha]; intros f.
  - unfold flagCount; cbn [flagHistory messageCount defaultProfile].
    rewrite lookup_empty. cbn. split; [lia | congruence].
  - destruct (IH f) as [Hc Hn].
    apply analyzeMessage_result in Ha as (_ & Hnd & Hknown).
    rewrite updateRiskProfile_flagCount.
    pose proof (occurrences_NoDup (flags a) f Hnd) as Hocc.
    unfold updateRiskProfile at 1; cbn [messageCount].
    split; [lia |]. intros Hne.
    destruct (decide (flagCount p f = 0%Z)) as [Hz | Hz]; [| now apply Hn].
    apply Hknown, occurrences_positive. lia.
Qed.

Lemma tracked_flag_counts_kill_destroy :
  let p := updateRiskProfile envDefault Sample.clock (Some defaultProfile)
             (analyzeString (Sample.polarity (-6)) Sample.asciiLower
                Sample.clock Sample.killDestroy) in
  tracked envDefault p ∧ flagCount p "violence" = 1%Z.
Proof.
  cbn zeta.
  assert (Ht : tracked envDefault
            (updateRiskProfile envDefault Sample.clock (Some defaultProfile)
               (analyzeString (Sample.polarity (-6)) Sample.asciiLower
                  Sample.clock Sample.killDestroy))).
  { apply (tracked_message envDefault defaultProfile (Sample.polarity (-6))
             Sample.asciiLower Sample.clock Sample.clock
             (Str Sample.killDestroy)).
    - apply tracked_default.
    - reflexivity. }
  split; [exact Ht |].
  destruct (tracked_flag_counts envDefault _ Ht) as [_ Hf].
  destruct (Hf "violence") as [[H0 H1] _].
  unfold updateRiskProfile at 2 in H1; cbn [messageCount defaultProfile] in H1.
  assert (flagCount
            (updateRiskProfile envDefault Sample.clock (Some defaultProfile)
               (analyzeString (Sample.polarity (-6)) Sample.asciiLower
                  Sample.clock Sample.killDestroy)) "violence" ≠ 0%Z)
    by (vm_compute; discriminate).
  lia.
Defined.

(** X12.  A message whose content is absent, not a string or empty still
    counts: the update raises the message count and decays the total by
    0.95, adding nothing; the flag history is untouched; and when the high
    threshold is positive the message is neither counted as high-risk nor
    alerted on. *)
Theorem degenerate_message_update
    (sentiment_analyze : jsstring -> Q) (toLowerCase : jsstring -> jsstring)
    (analyzed updated : Timestamp) (env : Env) (p : RiskProfile)
    (content : value) :
  (∀ s, content = Str s → s = []) →
  ∃ a, analyzeMessage sentiment_analyze toLowerCase analyzed content
       = Normal a
       ∧ let p' := updateRiskProfile env updated (Some p) a in
         messageCount p' = (messageCount p + 1)%Z
         ∧ totalRiskScore p' == totalRiskScore p * 0.95
         ∧ flagHistory p' = flagHistory p
         ∧ (0 < thresholdHigh env →
            highRiskCount p' = highRiskCount p ∧ shouldAlert env a = false).
Proof.
  intros H. exists zeroAssessment.
  split; [now apply analyzeMessage_degenerate |].
  cbn zeta. unfold updateRiskProfile, shouldAlert;
    cbn [messageCount totalRiskScore flagHistory highRiskCount riskScore
         flags zeroAssessment fold_left].
  split; [reflexivity |]. split; [unfold decayFactor; ring |].
  split; [reflexivity |].
  intros Hthr. assert (geb 0 (thresholdHigh env) = false) as ->
    by now apply geb_lt.
  now split.
Qed.

Lemma degenerate_message_update_null :
  (∀ s, Null = Str s → s = [])
  ∧ ∃ a, analyzeMessage (Sample.polarity 0) Sample.asciiLower Sample.clock
           Null = Normal a
         ∧ messageCount
             (updateRiskProfile envDefault Sample.clock
                (Some Sample.fiveMessages) a) = 6%Z.
Proof.
  assert (H : ∀ s, Null = Str s → s = []) by (intros s [=]).
  split; [exact H |].
  destruct (degenerate_message_update (Sample.polarity 0) Sample.asciiLower
              Sample.clock Sample.clock envDefault Sample.fiveMessages Null H)
    as (a & Ha & Hn & _).
  exists a. split; [exact Ha | exact Hn].
Defined.

(** * Further properties of the severity bands *)

(** X13.  Whatever the thresholds, a higher score never gets a lower
    label, and the label is one of the four. *)
Theorem getRiskLevel_monotone (env : Env) (r1 r2 : Q) :
  r1 <= r2 →
  (levelRank (getRiskLevel env r1) <= levelRank (getRiskLevel env r2))%nat
  ∧ getRiskLevel env r2 ∈ ["Low"; "Medium"; "High"; "Critical"].
Proof.
  intros Hr. unfold getRiskLevel. split.
  - destruct (ltb r1 (thresholdLow env)) eqn:H1l;
    destruct (ltb r1 (thresholdMedium env)) eqn:H1m;
    destruct (ltb r1 (thresholdHigh env)) eqn:H1h;
    destruct (ltb r2 (thresholdLow env)) eqn:H2l;
    destruct (ltb r2 (thresholdMedium env)) eqn:H2m;
    destruct (ltb r2 (thresholdHigh env)) eqn:H2h;
    cbn; try lia; exfalso;
    repeat match goal with
           | H : ltb _ _ = true |- _ => apply ltb_lt in H
           | H : ltb _ _ = false |- _ => apply ltb_ge in H
           end; lra.
  - destruct (ltb r2 (thresholdLow env)); [set_solver |].
    destruct (ltb r2 (thresholdMedium env)); [set_solver |].
    destruct (ltb r2 (thresholdHigh env)); set_solver.
Qed.

Lemma getRiskLevel_monotone_default :
  0.5 <= 0.85
  ∧ (levelRank (getRiskLevel envDefault 0.5)
     <= levelRank (getRiskLevel envDefault 0.85))%nat.
Proof.
  assert (H : 0.5 <= 0.85) by discriminate.
  split; [exact H |].
  apply (getRiskLevel_monotone envDefault 0.5 0.85 H).
Defined.

(** * The bot *)

Lemma lit_nonempty (s : string) : s ≠ "" → lit s ≠ [].
Proof. destruct s; [congruence | discriminate]. Qed.

Lemma join_head_nonempty (sep x : jsstring) (l : list jsstring) :
  x ≠ [] → Bot.join sep (x :: l) ≠ [].
Proof.
  intros Hx. cbn [Bot.join]. destruct l; [exact Hx |].
  destruct x; [congruence | discriminate].
Qed.

(** X14.  The preview of a message in the alert is the content itself when
    it has at most 200 code units, and otherwise its first 200 code units
    followed by three dots; it is never longer than 203 code units, and
    it is empty only for an empty content. *)
Theorem messagePreview_bounds (content : jsstring) :
  (length (Bot.messagePreview content) <= 203)%nat
  ∧ ((length content <= 200)%nat → Bot.messagePreview content = content)
  ∧ ((200 < length content)%nat →
     Bot.messagePreview content = take 200 content ++ lit "..."
     ∧ length (Bot.messagePreview content) = 203%nat)
  ∧ (Bot.messagePreview content = [] ↔ content = []).
Proof.
  unfold Bot.messagePreview.
  destruct (Nat.ltb_spec 200 (length content)) as [Hlong | Hshort].
  - assert (Hlen : length (take 200 content ++ lit "...") = 203%nat).
    { rewrite length_app, length_take_le by lia. reflexivity. }
    split; [lia |]. split; [lia |]. split; [now split |].
    split.
    + intros H. rewrite H in Hlen. discriminate.
    + intros ->. cbn in Hlong. lia.
  - rewrite app_nil_r, take_ge by exact Hshort.
    split; [lia |]. split; [reflexivity |]. split; [lia | reflexivity].
Qed.

(** X15.  The Flags field of the alert is never the empty string: it reads
    [None] when the assessment has no flag, and is the flags joined by a
    comma and a space when the first flag is not the empty string. *)
Theorem flagsField_nonempty (flags : list string) :
  Bot.flagsField flags ≠ []
  ∧ (flags = [] → Bot.flagsField flags = lit "None")
  ∧ (∀ f rest, flags = f :: rest → f ≠ "" →
       Bot.flagsField flags = Bot.join (lit ", ") (map lit flags)).
Proof.
  unfold Bot.flagsField. split; [| split].
  - destruct (Bot.join _ _); discriminate.
  - now intros ->.
  - intros f rest -> Hf. cbn [map].
    pose proof (join_head_nonempty (lit ", ") (lit f) (map lit rest)
                  (lit_nonempty f Hf)) as Hj.
    now destruct (Bot.join _ _).
Qed.

Section HandlerFacts.

Variable sentiment_analyze : jsstring -> Q.
Variable toLowerCase : jsstring -> jsstring.
Variable toFixed1 : Q -> jsstring.
Variable numberToString : Q -> jsstring.
Variable benv : Bot.BotEnv.
Variables analyzed updated sent : Timestamp.
Variable fetch : Bot.FetchResult.
Variable send : Bot.SendResult.
Variable stored : option RiskProfile.
Variable message : Bot.Message.

Local Abbreviation trace :=
  (Bot.onMessageCreate sentiment_analyze toLowerCase toFixed1 numberToString
     benv analyzed updated sent fetch send stored message).
Local Abbreviation analysis :=
  (analyzeMessage sentiment_analyze toLowerCase analyzed
     (Str (Bot.message_content message))).
Local Abbreviation alert a :=
  (Bot.sendAlert toFixed1 benv sent fetch send message a
     (updateRiskProfile (Bot.thresholds benv) updated stored a)).

(** The handler, once past its two gates. *)
Lemma onMessageCreate_processed :
  Bot.author_bot (Bot.message_author message) = false →
  Bot.MESSAGE_SCAN_ENABLED benv = Some "true" →
  ∃ a, analysis = Normal a
       ∧ trace
         = [ Bot.DbGetUserProfile (Bot.author_id (Bot.message_author message));
             Bot.DbUpdateUserProfile
               (Bot.author_id (Bot.message_author message))
               (updateRiskProfile (Bot.thresholds benv) updated stored a);
             Bot.DbLogMessage (Bot.message_id message)
               (Bot.author_id (Bot.message_author message))
               (Bot.message_content message) (riskScore a) (flags a) ]
           ++ (if shouldAlert (Bot.thresholds benv) a then alert a else [])
           ++ [ Bot.Log "debug"
                  (lit "Analyzed message from "
                   ++ Bot.author_tag (Bot.message_author message)
                   ++ lit ": risk=" ++ numberToString (riskScore a))
                  Undefined ].
Proof.
  intros Hbot Hscan. unfold Bot.onMessageCreate. rewrite Hbot, Hscan.
  cbn [String.eqb Ascii.eqb Bool.eqb negb andb].
  destruct (analyzeMessage_cases sentiment_analyze toLowerCase analyzed
              (Str (Bot.message_content message)))
    as [[Ha _] | (s & _ & _ & Ha)]; rewrite Ha; eexists;
    (split; [reflexivity |]); reflexivity.
Qed.

Lemma onMessageCreate_skipped :
  Bot.author_bot (Bot.message_author message) = true
  ∨ Bot.MESSAGE_SCAN_ENABLED benv ≠ Some "true" →
  trace = [].
Proof.
  unfold Bot.onMessageCreate.
  destruct (Bot.author_bot (Bot.message_author message)); [reflexivity |].
  intros [[=] | H].
  destruct (Bot.MESSAGE_SCAN_ENABLED benv) as [enabled |]; [| reflexivity].
  destruct (String.eqb_spec enabled "true") as [-> | Hne];
    [congruence | reflexivity].
Qed.

Lemma gates_decidable :
  (Bot.author_bot (Bot.message_author message) = false
   ∧ Bot.MESSAGE_SCAN_ENABLED benv = Some "true")
  ∨ (Bot.author_bot (Bot.message_author message) = true
     ∨ Bot.MESSAGE_SCAN_ENABLED benv ≠ Some "true").
Proof.
  destruct (Bot.author_bot (Bot.message_author message)); [right; now left |].
  destruct (decide (Bot.MESSAGE_SCAN_ENABLED benv = Some "true"));
    [now left | right; now right].
Qed.



(** X16.  The handler does nothing at all (no database call, no alert, no
    log line) exactly when the author is a bot or [MESSAGE_SCAN_ENABLED] is
    anything other than the string [true]. *)
Theorem onMessageCreate_gate :
  (Bot.onMessageCreate sentiment_analyze toLowerCase toFixed1 numberToString
      benv analyzed updated sent fetch send stored message) = []
  ↔ Bot.author_bot (Bot.message_author message) = true
    ∨ Bot.MESSAGE_SCAN_ENABLED benv ≠ Some "true".
Proof.
  split; [| apply onMessageCreate_skipped].
  destruct gates_decidable as [[Hbot Hscan] | H]; [| now intros _].
  destruct (onMessageCreate_processed Hbot Hscan) as (a & _ & ->).
  discriminate.
Qed.



End HandlerFacts.


(** * The logger *)

(** X19.  Every call of [writeLog] appends one line to the log file: the
    formatted message and a line feed, whatever the level.  It prints the
    formatted message on at most one console stream: the error stream for
    level [error], the warning stream for [warn], standard output for any
    other level; for level [debug] only when [NODE_ENV] is [development],
    and that is the only case in which nothing is printed. *)
Theorem writeLog_routing
    (toUpperCase : jsstring -> jsstring) (JSON_stringify : value -> jsstring)
    (NODE_ENV : option string) (timestamp : Timestamp)
    (level : string) (message : jsstring) (data : value) :
  let line :=
    Logger.formatLog toUpperCase JSON_stringify timestamp level message data in
  ∃ console,
    Logger.writeLog toUpperCase JSON_stringify NODE_ENV timestamp level
      message data
    = Logger.AppendFile (line ++ [0x0A%N]) :: console
    ∧ (console = [] ↔ level = "debug" ∧ NODE_ENV ≠ Some "development")
    ∧ (∀ o, o ∈ console →
         console = [o]
         ∧ ∃ stream, o = Logger.ToConsole stream line
             ∧ (stream = Logger.ConsoleError ↔ level = "error")
             ∧ (stream = Logger.ConsoleWarn ↔ level = "warn")).
Proof.
  cbn zeta. unfold Logger.writeLog. eexists. split; [reflexivity |].
  assert (Hone : ∀ (stream : Logger.Console) line,
            (stream = Logger.ConsoleError ↔ level = "error") →
            (stream = Logger.ConsoleWarn ↔ level = "warn") →
            ∀ o, o ∈ [Logger.ToConsole stream line] →
              [Logger.ToConsole stream line] = [o]
              ∧ ∃ stream', o = Logger.ToConsole stream' line
                  ∧ (stream' = Logger.ConsoleError ↔ level = "error")
                  ∧ (stream' = Logger.ConsoleWarn ↔ level = "warn")).
  { intros stream line He Hw o ->%list_elem_of_singleton.
    split; [reflexivity |]. now exists stream. }
  destruct (String.eqb_spec level "error") as [-> | Herr].
  { split; [split; [discriminate | intros [[=] _]] |].
    apply Hone; split; congruence. }
  destruct (String.eqb_spec level "warn") as [-> | Hwarn].
  { split; [split; [discriminate | intros [[=] _]] |].
    apply Hone; split; congruence. }
  destruct (String.eqb_spec level "debug") as [-> | Hdebug].
  - destruct NODE_ENV as [mode |].
    + destruct (String.eqb_spec mode "development") as [-> | Hmode].
      * split; [split; [discriminate | intros [_ H]; congruence] |].
        apply Hone; split; congruence.
      * split; [split; [intros _; split; congruence | reflexivity] |].
        intros o Ho. now apply elem_of_nil in Ho.
    + split; [split; [intros _; split; congruence | reflexivity] |].
      intros o Ho. now apply elem_of_nil in Ho.
  - split; [split; [discriminate | intros [H _]; congruence] |].
    apply Hone; split; congruence.
Qed.

(** * Flagged messages have a positive score *)

Lemma categoryRisk_matched (lower : jsstring) (terms : list jsstring) :
  matchedTerms lower terms ≠ [] → 0.15 <= categoryRisk lower terms.
Proof.
  intros Hm. rewrite categoryRisk_min.
  assert (1 <= inject_Z (Z.of_nat (length (matchedTerms lower terms)))).
  { change 1 with (inject_Z 1). rewrite <- Zle_Qle.
    destruct (matchedTerms lower terms); [congruence | cbn [length]; lia]. }
  apply Q.min_glb; lra.
Qed.

Lemma lexiconRisk_member (lower : jsstring) lexicon
    (c : string) (ks : list jsstring) :
  (c, ks) ∈ lexicon → categoryRisk lower ks <= lexiconRisk lower lexicon.
Proof.
  induction lexicon as [| e lex IH]; intros Hin;
    [now apply elem_of_nil in Hin |].
  cbn [lexiconRisk fold_right]. fold (lexiconRisk lower lex).
  pose proof (lexiconRisk_nonneg lower lex).
  pose proof (categoryRisk_nonneg lower e.2).
  apply elem_of_cons in Hin as [<- | Hin]; [cbn [snd] in *; lra |].
  apply IH in Hin. lra.
Qed.

(** X20.  An assessment with a flag has a score of at least 0.05, and of at
    least 0.15 when one of its flags is a category name; so a score of 0
    means that nothing was flagged. *)
Theorem flagged_score_positive
    (sentiment_analyze : jsstring -> Q) (toLowerCase : jsstring -> jsstring)
    (now : Timestamp) (content : value) :
  ∃ a, analyzeMessage sentiment_analyze toLowerCase now content = Normal a
       ∧ (flags a ≠ [] → 0.05 <= riskScore a)
       ∧ (∀ c, c ∈ flags a → c ∈ RISK_PATTERNS.*1 → 0.15 <= riskScore a).
Proof.
  destruct (analyzeMessage_cases sentiment_analyze toLowerCase now content)
    as [[-> _] | (s & _ & _ & ->)]; eexists; (split; [reflexivity |]).
  { cbn [flags zeroAssessment]. split; [congruence |].
    intros c Hc. now apply elem_of_nil in Hc. }
  pose proof (accumulate_totalRisk sentiment_analyze toLowerCase s) as Htot.
  pose proof (sentimentRisk_range (sentiment_analyze s)) as Hsent.
  pose proof (lexiconRisk_nonneg (toLowerCase s) RISK_PATTERNS) as Hlex.
  assert (Hflag : ∀ f,
    f ∈ flags (analyzeString sentiment_analyze toLowerCase now s) →
    (f ∈ RISK_PATTERNS.*1
     ∧ 0.15 <= totalRisk (accumulate sentiment_analyze toLowerCase s))
    ∨ ((f ∉ RISK_PATTERNS.*1)
       ∧ 0.05 <= totalRisk (accumulate sentiment_analyze toLowerCase s))).
  { intros f Hf. apply analyzeString_flags in Hf.
    destruct (capsRisk_cases s) as [[Hsh Hc] | [Hsh Hc]];
    destruct (spamRisk_cases s) as [[Hrun Hp] | [Hrun Hp]];
      rewrite Htot, Hc, Hp;
      destruct Hf as [(ks & Hks & Hm) | [[-> H] | [-> H]]];
      try contradiction;
      try (left; split;
           [apply (list_elem_of_fmap_2 fst) in Hks; exact Hks |];
           pose proof (categoryRisk_matched _ _ Hm);
           pose proof (lexiconRisk_member (toLowerCase s) _ _ _ Hks); lra);
      right;
      (split; [| lra]; rewrite RISK_PATTERNS_names; intros Hx;
       repeat (apply elem_of_cons in Hx as [[=] | Hx]);
       now apply elem_of_nil in Hx). }
  unfold analyzeString at 2 4; cbn [riskScore]. split.
  - intros Hne.
    destruct (flags (analyzeString sentiment_analyze toLowerCase now s))
      as [| f fl] eqn:Hfl; [congruence |].
    destruct (Hflag f) as [[_ H] | [_ H]]; [apply list_elem_of_here | |];
      apply Q.min_glb; lra.
  - intros c Hc Hcat.
    destruct (Hflag c Hc) as [[_ H] | [Hn _]]; [| contradiction].
    apply Q.min_glb; lra.
Qed.
